(** * Flight-safety core of the AI weather assistant

    A shallow embedding of the three core operations of the repository:

    - [FlightAnalyzer.calculate_flight_score] and its five factor analysers
      (src/flight_analyzer.py),
    - [FlightAnalyzer.generate_flight_recommendations]
      (src/flight_analyzer.py),
    - [WeatherAlerts.check_weather_alerts] with the [WeatherAlert]
      constructor (src/Weather_alerts.py),

    together with the thresholds of src/config.py.

    Numbers.  The readings carry Python numbers (ints or floats, as parsed
    from the provider's JSON).  They are embedded as rationals [Q], each
    standing for the value of the int or of the double.  Comparisons are
    exact and [int()] is truncation toward zero.  Where the source computes
    in binary64 (the products by the weights 0.3, 0.25, 0.15, 0.20 and 0.10,
    [sum(scores)], the sum of rain and snow, the density altitude) the
    operation is followed by [Py.round64], rounding to 53 significant bits,
    ties to even.  The exponent range is not bounded: overflow, subnormal
    numbers, NaN and the infinities are outside this model.  The
    arithmetic of the wind sub-score is exact on the doubles of its
    brackets and is written without rounding.  The temperature sub-score
    is taken at its exact value: the roundings of its subtraction and of
    its product, a few units in the fourteenth decimal place, are not
    modelled.

    Effects.  [WeatherAlert.__init__] reads the wall clock
    ([datetime.now().isoformat()]) and [check_weather_alerts] overwrites
    [self.active_alerts]; both are modelled by explicit state passing over a
    record [World]. *)

(** Beyond the three core operations the development covers
    [calculate_density_altitude], the two reports of [WeatherAlerts]
    ([get_alert_summary], [format_alerts]), the processing functions of
    the Tomorrow.io fetcher ([_get_weather_code_description], the
    reading built by [_process_tomorrowio_data],
    [_process_forecast_data]) and, from the
    command loop, the dispatch of a line and the history update.  Network
    access and printing are not modelled. *)

From Stdlib Require Import ZArith QArith Qround Qabs Qpower Lia Lqa Bool List.
From Stdlib Require Import String Ascii.
From Stdlib Require Import DecimalString.
Import ListNotations.

Open Scope string_scope.
Open Scope Z_scope.
Open Scope Q_scope.

(* ------------------------------------------------------------------ *)
(** ** Python numbers and builtins *)

Module Py.

(** Comparison operators of Python on numbers. *)
Definition le (x y : Q) : bool := Qle_bool x y.
Definition lt (x y : Q) : bool := negb (Qle_bool y x).
Definition ge (x y : Q) : bool := le y x.
Definition gt (x y : Q) : bool := lt y x.
Definition eq (x y : Q) : bool := Qeq_bool x y.

(** [int(x)]: truncation toward zero. *)
Definition int (x : Q) : Z := Z.quot (Qnum x) (Zpos (Qden x)).

(** [max(a, b)]: the first argument unless the second is strictly
    greater. *)
Definition max (a b : Q) : Q := if gt b a then b else a.

(** Decimal digits of a natural number. *)
Definition digits (n : Z) : string :=
  NilZero.string_of_uint (N.to_uint (Z.to_N n)).

(** Rounding of a non-negative rational to the nearest integer, ties to
    the even neighbour. *)
Definition round_half_even (x : Q) : Z :=
  let f := Qfloor x in
  let r := x - inject_Z f in
  if lt r (1 # 2) then f
  else if lt (1 # 2) r then (f + 1)%Z
  else if Z.even f then f else (f + 1)%Z.

(** Binary64 arithmetic.  [pow2 e] is 2^e; [ilog2 x] is the exponent of
    a positive [x], the [k] with 2^k <= x < 2^(k+1). *)
Definition pow2 (e : Z) : Q := 2 ^ e.

Definition ilog2 (x : Q) : Z :=
  let k := (Z.log2 (Qnum x) - Z.log2 (Zpos (Qden x)))%Z in
  if le (pow2 k) x then k else (k - 1)%Z.

(** Rounding to the nearest multiple of 2^e, ties to even. *)
Definition round_at (e : Z) (x : Q) : Q :=
  inject_Z (round_half_even (x / pow2 e)) * pow2 e.

(** Rounding of a positive value to 53 significant bits. *)
Definition round_pos (x : Q) : Q := round_at (ilog2 x - 52) x.

(** The double nearest to [x], ties to even. *)
Definition round64 (x : Q) : Q :=
  if lt 0 x then round_pos x
  else if lt x 0 then - round_pos (- x)
  else 0.

(** A float literal, and [+], [-], [*] on floats (an int operand is
    converted first, exactly for the ints that occur). *)
Definition float (x : Q) : Q := round64 x.
Definition fadd (a b : Q) : Q := round64 (a + b).
Definition fsub (a b : Q) : Q := round64 (a - b).
Definition fmul (a b : Q) : Q := round64 (a * b).

(** [sum(xs)] of floats: left to right, starting from 0, one binary64
    addition for each element, as CPython computes it up to version 3.11
    (later versions compensate the rounding errors of the partial sums,
    which can change the last bit of the total). *)
Definition sum (xs : list Q) : Q := fold_left fadd xs 0.

(** [format(x, '.1f')]: sign, integer part, one fractional digit; the
    value is rounded half-even at its exact value, and a negative value
    keeps its sign when it rounds to zero. *)
Definition format_1f (x : Q) : string :=
  let n := round_half_even (Qabs x * 10) in
  ((if lt x 0 then "-" else "")
     ++ digits (n / 10) ++ "." ++ digits (n mod 10))%string.

(** A Python number whose [str()] is taken: an int prints without a
    fractional part, a float with at least one fractional digit. *)
Inductive num : Type :=
| Int (z : Z)
| Float (q : Q).

Definition value (n : num) : Q :=
  match n with
  | Int z => inject_Z z
  | Float q => q
  end.

(** Fractional digits of [r / d] for [0 <= r < d], at most [fuel] of
    them, stopping when the expansion ends. *)
Fixpoint frac_digits (fuel : nat) (r d : Z) : string :=
  match fuel with
  | O => ""
  | S k =>
      if (r =? 0)%Z then ""
      else (digits ((10 * r) / d) ++ frac_digits k ((10 * r) mod d) d)%string
  end.

(** [str(x)].  For a float this is the decimal expansion of the value,
    cut after 17 fractional digits; it is Python's shortest
    representation for the values a short decimal literal denotes, as
    long as the magnitude is in the range 1e-4 to 1e16 (outside it
    Python prints an exponent). *)
Definition str (n : num) : string :=
  match n with
  | Int z => ((if (z <? 0)%Z then "-" else "") ++ digits (Z.abs z))%string
  | Float q =>
      let a := Qabs q in
      let i := Qfloor a in
      let d := Zpos (Qden a) in
      let r := (Qnum a - i * d)%Z in
      ((if lt q 0 then "-" else "") ++ digits i ++ "."
         ++ (if (r =? 0)%Z then "0" else frac_digits 17 r d))%string
  end.

(** [s.lower()] on the ASCII letters; other bytes are kept.  The evaluator
    only searches the lowered string for "thunderstorm" and "tornado". *)
Definition lower_ascii (c : ascii) : ascii :=
  let n := nat_of_ascii c in
  if (andb (Nat.leb 65 n) (Nat.leb n 90)) then ascii_of_nat (n + 32) else c.

Fixpoint lower (s : string) : string :=
  match s with
  | EmptyString => EmptyString
  | String c s' => String (lower_ascii c) (lower s')
  end.

(** [s.startswith(p)] *)
Fixpoint startswith (s p : string) {struct p} : bool :=
  match p with
  | EmptyString => true
  | String a p' =>
      match s with
      | EmptyString => false
      | String b s' => Ascii.eqb a b && startswith s' p'
      end
  end.

(** [needle in s]: substring test. *)
Fixpoint contains (needle s : string) : bool :=
  if startswith s needle then true
  else match s with
       | EmptyString => false
       | String _ s' => contains needle s'
       end.

End Py.

(* ------------------------------------------------------------------ *)
(** ** Configuration (src/config.py) *)

Record WindSpeedLimits : Type :=
  { wind_safe : Q; wind_caution : Q; wind_dangerous : Q }.

Record VisibilityLimits : Type :=
  { vis_safe : Q; vis_caution : Q; vis_dangerous : Q }.

Record TemperatureLimits : Type :=
  { min_safe : Q; max_safe : Q }.

Record PrecipitationLimits : Type :=
  { light : Q; moderate : Q; heavy : Q }.

Module Config.

Definition WIND_SPEED_LIMITS : WindSpeedLimits :=
  {| wind_safe := 15; wind_caution := 25; wind_dangerous := 35 |}.

Definition VISIBILITY_LIMITS : VisibilityLimits :=
  {| vis_safe := 10; vis_caution := 5; vis_dangerous := 1 |}.

Definition TEMPERATURE_LIMITS : TemperatureLimits :=
  {| min_safe := -10; max_safe := 40 |}.

Definition PRECIPITATION_LIMITS : PrecipitationLimits :=
  {| light := 25 # 10; moderate := 76 # 10; heavy := 50 |}.

End Config.

(* ------------------------------------------------------------------ *)
(** ** The weather reading

    The dictionary built by the fetchers, restricted to the keys the core
    reads. *)

Record Wind : Type := { speed : Q; gust : Q }.

Record Temperature : Type := { current : Q }.

Record Precipitation : Type := { rain_1h : Q; snow_1h : Q }.

Record Weather : Type := { main : string }.

Record WeatherData : Type :=
  { wind : Wind;
    visibility : Q;
    temperature : Temperature;
    precipitation : Precipitation;
    cloudiness : Q;
    pressure : Py.num;
    weather : Weather }.

(* ------------------------------------------------------------------ *)
(** ** Scoring engine (src/flight_analyzer.py) *)

Inductive FlightSafety : Type := SAFE | CAUTION | DANGEROUS | NO_FLY.

Record FlightAnalyzer : Type :=
  { wind_limits : WindSpeedLimits;
    visibility_limits : VisibilityLimits;
    temp_limits : TemperatureLimits;
    precip_limits : PrecipitationLimits }.

(** [FlightAnalyzer.__init__] *)
Definition FlightAnalyzer_init : FlightAnalyzer :=
  {| wind_limits := Config.WIND_SPEED_LIMITS;
     visibility_limits := Config.VISIBILITY_LIMITS;
     temp_limits := Config.TEMPERATURE_LIMITS;
     precip_limits := Config.PRECIPITATION_LIMITS |}.

Section Analyzer.

Variable self : FlightAnalyzer.

(** [max(wind_speed, wind_gust)] *)
Definition effective_wind (wind_data : Wind) : Q :=
  Py.max (speed wind_data) (gust wind_data).

Definition _analyze_wind (wind_data : Wind) : Z :=
  let effective_wind := effective_wind wind_data in
  if Py.le effective_wind (wind_safe (wind_limits self)) then 100%Z
  else if Py.le effective_wind (wind_caution (wind_limits self)) then
    (70 - Py.int ((effective_wind - wind_safe (wind_limits self)) * 3))%Z
  else if Py.le effective_wind (wind_dangerous (wind_limits self)) then
    (40 - Py.int ((effective_wind - wind_caution (wind_limits self)) * 2))%Z
  else 0%Z.

Definition _analyze_visibility (visibility_km : Q) : Z :=
  if Py.ge visibility_km (vis_safe (visibility_limits self)) then 100%Z
  else if Py.ge visibility_km (vis_caution (visibility_limits self)) then 70%Z
  else if Py.ge visibility_km (vis_dangerous (visibility_limits self)) then 30%Z
  else 0%Z.

Definition _analyze_temperature (temperature : Q) : Q :=
  if andb (Py.le (min_safe (temp_limits self)) temperature)
          (Py.le temperature (max_safe (temp_limits self)))
  then 100
  else if Py.lt temperature (min_safe (temp_limits self)) then
    let diff := min_safe (temp_limits self) - temperature in
    Py.max 0 (100 - diff * 5)
  else
    let diff := temperature - max_safe (temp_limits self) in
    Py.max 0 (100 - diff * 3).

Definition _analyze_precipitation (precip_data : Precipitation) : Z :=
  let total_precip := Py.fadd (rain_1h precip_data) (snow_1h precip_data) in
  if Py.eq total_precip 0 then 100%Z
  else if Py.le total_precip (light (precip_limits self)) then 80%Z
  else if Py.le total_precip (moderate (precip_limits self)) then 50%Z
  else if Py.le total_precip (heavy (precip_limits self)) then 20%Z
  else 0%Z.

Definition _analyze_clouds (cloudiness : Q) : Z :=
  if Py.le cloudiness 25 then 100%Z
  else if Py.le cloudiness 50 then 85%Z
  else if Py.le cloudiness 75 then 70%Z
  else 50%Z.

Definition _determine_safety_level (score : Q) : FlightSafety :=
  if Py.ge score 80 then SAFE
  else if Py.ge score 60 then CAUTION
  else if Py.ge score 30 then DANGEROUS
  else NO_FLY.

(** The list [scores] as it stands before [sum(scores)]. *)
Definition weighted_scores (weather_data : WeatherData) : list Q :=
  let scores : list Q := [] in
  let wind_score := _analyze_wind (wind weather_data) in
  let scores :=
    (scores ++ [Py.fmul (inject_Z wind_score) (Py.float (3 # 10))])%list in
  let visibility_score := _analyze_visibility (visibility weather_data) in
  let scores :=
    (scores
       ++ [Py.fmul (inject_Z visibility_score) (Py.float (25 # 100))])%list in
  let temp_score := _analyze_temperature (current (temperature weather_data)) in
  let scores := (scores ++ [Py.fmul temp_score (Py.float (15 # 100))])%list in
  let precip_score := _analyze_precipitation (precipitation weather_data) in
  let scores :=
    (scores ++ [Py.fmul (inject_Z precip_score) (Py.float (20 # 100))])%list in
  let cloud_score := _analyze_clouds (cloudiness weather_data) in
  let scores :=
    (scores ++ [Py.fmul (inject_Z cloud_score) (Py.float (10 # 100))])%list in
  scores.

(** The argument is [None] for a reading that is absent ([None], or the
    empty dictionary, both falsy). *)
Definition calculate_flight_score (weather_data : option WeatherData)
  : Z * FlightSafety :=
  match weather_data with
  | None => (0%Z, NO_FLY)
  | Some weather_data =>
      let total_score := Py.sum (weighted_scores weather_data) in
      let safety_level := _determine_safety_level total_score in
      (Py.int total_score, safety_level)
  end.

End Analyzer.

(* ------------------------------------------------------------------ *)
(** ** Recommendation generator (src/flight_analyzer.py) *)

Section Recommendations.

Variable self : FlightAnalyzer.

Definition high_wind_line (wind_speed : Q) : string :=
  "⚠️ High wind speeds (" ++ Py.format_1f wind_speed
    ++ " km/h). Consider postponing flight.".

Definition moderate_wind_line (wind_speed : Q) : string :=
  "🌪️ Moderate winds (" ++ Py.format_1f wind_speed
    ++ " km/h). Experienced pilots only.".

Definition low_visibility_line (visibility : Q) : string :=
  "🌫️ Low visibility (" ++ Py.format_1f visibility
    ++ " km). Use visual observers.".

Definition cold_line (temp : Q) : string :=
  "🥶 Cold temperature (" ++ Py.format_1f temp
    ++ "°C). Check battery performance.".

Definition hot_line (temp : Q) : string :=
  "🌡️ High temperature (" ++ Py.format_1f temp
    ++ "°C). Monitor for overheating.".

Definition rain_line (rain : Q) : string :=
  "🌧️ Rain detected (" ++ Py.format_1f rain
    ++ "mm/h). Protect equipment from moisture.".

Definition snow_line (snow : Q) : string :=
  "❄️ Snow detected (" ++ Py.format_1f snow
    ++ "mm/h). Cold weather precautions advised.".

(** The closing line of each tier. *)
Definition closing_line (safety_level : FlightSafety) : string :=
  match safety_level with
  | SAFE => "✅ Conditions are favorable for flight operations."
  | CAUTION => "⚠️ Proceed with caution. Monitor conditions closely."
  | DANGEROUS => "❌ Flight not recommended. Wait for better conditions."
  | NO_FLY => "🚫 DO NOT FLY. Conditions are unsafe for operations."
  end.

(** The lines appended before the closing one, in the order of the
    source. *)
Definition advisory_lines (weather_data : WeatherData) : list string :=
  let recommendations : list string := [] in
  (* Wind recommendations *)
  let wind_speed := speed (wind weather_data) in
  let recommendations :=
    if Py.gt wind_speed (wind_caution (wind_limits self)) then
      (recommendations ++ [high_wind_line wind_speed])%list
    else if Py.gt wind_speed (wind_safe (wind_limits self)) then
      (recommendations ++ [moderate_wind_line wind_speed])%list
    else recommendations in
  (* Visibility recommendations *)
  let visibility := visibility weather_data in
  let recommendations :=
    if Py.lt visibility (vis_caution (visibility_limits self)) then
      (recommendations ++ [low_visibility_line visibility])%list
    else recommendations in
  (* Temperature recommendations *)
  let temp := current (temperature weather_data) in
  let recommendations :=
    if Py.lt temp (min_safe (temp_limits self)) then
      (recommendations ++ [cold_line temp])%list
    else if Py.gt temp (max_safe (temp_limits self)) then
      (recommendations ++ [hot_line temp])%list
    else recommendations in
  (* Precipitation recommendations *)
  let rain := rain_1h (precipitation weather_data) in
  let snow := snow_1h (precipitation weather_data) in
  let recommendations :=
    if Py.gt rain 0 then (recommendations ++ [rain_line rain])%list
    else recommendations in
  let recommendations :=
    if Py.gt snow 0 then (recommendations ++ [snow_line snow])%list
    else recommendations in
  recommendations.

Definition generate_flight_recommendations
  (weather_data : WeatherData) (score : Z) (safety_level : FlightSafety)
  : list string :=
  let recommendations := advisory_lines weather_data in
  (* General safety recommendations based on level *)
  match safety_level with
  | SAFE => (recommendations ++ [closing_line SAFE])%list
  | CAUTION => (recommendations ++ [closing_line CAUTION])%list
  | DANGEROUS => (recommendations ++ [closing_line DANGEROUS])%list
  | NO_FLY => (recommendations ++ [closing_line NO_FLY])%list
  end.

End Recommendations.

(* ------------------------------------------------------------------ *)
(** ** Alert evaluator (src/Weather_alerts.py) *)

Inductive AlertLevel : Type := INFO | WARNING | CRITICAL | EMERGENCY.

Record WeatherAlert : Type :=
  { level : AlertLevel;
    title : string;
    message : string;
    timestamp : string }.

(** The state the evaluator touches: the wall clock, as the sequence of
    strings successive calls of [datetime.now().isoformat()] return
    together with the number of calls made so far, and the attribute
    [active_alerts] of the [WeatherAlerts] object. *)
Record World : Type :=
  { clock : nat -> string;
    reads : nat;
    active_alerts : list WeatherAlert }.

Definition M (A : Type) : Type := World -> A * World.

Definition ret {A : Type} (a : A) : M A := fun w => (a, w).

Definition bind {A B : Type} (c : M A) (k : A -> M B) : M B :=
  fun w => let (a, w') := c w in k a w'.

Notation "x <- c ;; k" := (bind c (fun x => k))
  (at level 61, c at next level, right associativity).

(** [datetime.now().isoformat()] *)
Definition datetime_now_isoformat : M string :=
  fun w => (clock w (reads w),
            {| clock := clock w; reads := S (reads w);
               active_alerts := active_alerts w |}).

(** [self.active_alerts = alerts] *)
Definition set_active_alerts (alerts : list WeatherAlert) : M unit :=
  fun w => (tt, {| clock := clock w; reads := reads w;
                   active_alerts := alerts |}).

(** [WeatherAlert.__init__]: [timestamp or datetime.now().isoformat()];
    [None] and the empty string are falsy. *)
Definition WeatherAlert_init (level : AlertLevel) (title message : string)
  (timestamp : option string) : M WeatherAlert :=
  match timestamp with
  | Some (String c s) =>
      ret {| level := level; title := title; message := message;
             timestamp := String c s |}
  | _ =>
      t <- datetime_now_isoformat ;;
      ret {| level := level; title := title; message := message;
             timestamp := t |}
  end.

(** [alerts.append(WeatherAlert(level, title, message))] *)
Definition append_alert (alerts : list WeatherAlert) (level : AlertLevel)
  (title message : string) : M (list WeatherAlert) :=
  a <- WeatherAlert_init level title message None ;;
  ret (alerts ++ [a])%list.

Definition check_weather_alerts (weather_data : WeatherData)
  : M (list WeatherAlert) :=
  let alerts : list WeatherAlert := [] in
  (* Wind alerts *)
  let wind_speed := speed (wind weather_data) in
  alerts <-
    (if Py.gt wind_speed 40 then
       append_alert alerts EMERGENCY "Extreme Wind Warning"
         ("Wind speed " ++ Py.format_1f wind_speed
            ++ " km/h exceeds safe limits. DO NOT FLY.")
     else if Py.gt wind_speed 30 then
       append_alert alerts CRITICAL "High Wind Warning"
         ("Wind speed " ++ Py.format_1f wind_speed
            ++ " km/h. Flight operations not recommended.")
     else if Py.gt wind_speed 20 then
       append_alert alerts WARNING "Wind Advisory"
         ("Wind speed " ++ Py.format_1f wind_speed
            ++ " km/h. Exercise extreme caution.")
     else ret alerts) ;;
  (* Visibility alerts *)
  let visibility := visibility weather_data in
  alerts <-
    (if Py.lt visibility 1 then
       append_alert alerts CRITICAL "Low Visibility Warning"
         ("Visibility " ++ Py.format_1f visibility
            ++ " km. Visual flight rules not recommended.")
     else if Py.lt visibility 3 then
       append_alert alerts WARNING "Reduced Visibility"
         ("Visibility " ++ Py.format_1f visibility
            ++ " km. Maintain visual observers.")
     else ret alerts) ;;
  (* Temperature alerts *)
  let temp := current (temperature weather_data) in
  alerts <-
    (if Py.lt temp (-15) then
       append_alert alerts CRITICAL "Extreme Cold Warning"
         ("Temperature " ++ Py.format_1f temp
            ++ "°C. Battery and equipment failure risk.")
     else if Py.gt temp 45 then
       append_alert alerts CRITICAL "Extreme Heat Warning"
         ("Temperature " ++ Py.format_1f temp
            ++ "°C. Overheating risk for electronics.")
     else ret alerts) ;;
  (* Precipitation alerts *)
  let rain := rain_1h (precipitation weather_data) in
  let snow := snow_1h (precipitation weather_data) in
  alerts <-
    (if orb (Py.gt rain 10) (Py.gt snow 10) then
       append_alert alerts CRITICAL "Heavy Precipitation Warning"
         "Heavy rain/snow detected. Equipment damage risk."
     else if orb (Py.gt rain (25 # 10)) (Py.gt snow (25 # 10)) then
       append_alert alerts WARNING "Precipitation Advisory"
         "Moderate precipitation. Protect equipment from moisture."
     else ret alerts) ;;
  (* Pressure alerts (rapid changes) *)
  let pressure := pressure weather_data in
  alerts <-
    (if Py.lt (Py.value pressure) 980 then
       append_alert alerts WARNING "Low Pressure System"
         ("Low barometric pressure " ++ Py.str pressure
            ++ " hPa. Storm system possible.")
     else if Py.gt (Py.value pressure) 1030 then
       append_alert alerts INFO "High Pressure System"
         ("High barometric pressure " ++ Py.str pressure
            ++ " hPa. Stable conditions expected.")
     else ret alerts) ;;
  (* Weather condition alerts *)
  let weather_main := Py.lower (main (weather weather_data)) in
  alerts <-
    (if Py.contains "thunderstorm" weather_main then
       append_alert alerts EMERGENCY "Thunderstorm Warning"
         "Thunderstorm conditions detected. IMMEDIATE LANDING REQUIRED."
     else if Py.contains "tornado" weather_main then
       append_alert alerts EMERGENCY "Tornado Warning"
         "Tornado activity detected. SEEK IMMEDIATE SHELTER."
     else ret alerts) ;;
  _ <- set_active_alerts alerts ;;
  ret alerts.

(* ------------------------------------------------------------------ *)
(** ** Scoring and evaluation as calls that return or raise

    A call either returns a value or raises.  The core has no [raise]
    statement and, on a fully populated reading of numbers, no lookup
    fails.  The arithmetic of the scoring engine cannot fail on numbers
    in the range of the floats (beyond it, the sum of an int and a float
    raises OverflowError in the source; the model does not tell an int
    from a float there).  The evaluator builds its messages before it assigns [self.active_alerts],
    and two conversions in them can fail.  A wind speed above 20, a
    visibility below 3 and a temperature below -15 or above 45 are
    formatted with [.1f], which converts the number to a float: on an int
    too large for a float this raises OverflowError.  A pressure below 980
    or above 1030 is printed by [str()], which refuses an int of more than
    4300 digits (the interpreter's default limit) with ValueError. *)

Inductive PyException : Type :=
| InvalidInputError
| OverflowError
| ValueError_int_digits.

Inductive outcome (A : Type) : Type :=
| Returned (a : A)
| Raised (e : PyException).

Arguments Returned {A} a.
Arguments Raised {A} e.

(** A number that converts to a finite float: every float of the model,
    and every int that rounds to a double, that is, of magnitude below
    2^1024 - 2^970. *)
Definition finite (x : Q) : bool :=
  Py.lt (Qabs x) (inject_Z (2 ^ 1024 - 2 ^ 970)).

Definition finite_reading (r : WeatherData) : bool :=
  finite (speed (wind r)) && finite (gust (wind r))
  && finite (visibility r) && finite (current (temperature r))
  && finite (rain_1h (precipitation r)) && finite (snow_1h (precipitation r))
  && finite (cloudiness r) && finite (Py.value (pressure r)).

(** An int that [str()] refuses: 4301 digits or more. *)
Definition str_refused (n : Py.num) : bool :=
  match n with
  | Py.Int z => (10 ^ 4300 <=? Z.abs z)%Z
  | Py.Float _ => false
  end.

Definition score (self : FlightAnalyzer) (reading : option WeatherData)
  : outcome (Z * FlightSafety) :=
  Returned (calculate_flight_score self reading).

Definition evaluate (reading : WeatherData) (w : World)
  : outcome (list WeatherAlert * World) :=
  let wind_speed := speed (wind reading) in
  let visibility := visibility reading in
  let temp := current (temperature reading) in
  let pressure := pressure reading in
  if (Py.gt wind_speed 20 && negb (finite wind_speed))
     || (Py.lt visibility 3 && negb (finite visibility))
     || ((Py.lt temp (-15) || Py.gt temp 45) && negb (finite temp))
  then Raised OverflowError
  else if (Py.lt (Py.value pressure) 980 || Py.gt (Py.value pressure) 1030)
          && str_refused pressure
  then Raised ValueError_int_digits
  else Returned (check_weather_alerts reading w).

(* ------------------------------------------------------------------ *)
(** ** Definitions that follow the specification's words

    They are compared with the code in the theorems below. *)

(** Tier mapping from the aggregate: >=80 SAFE, >=60 CAUTION,
    >=30 DANGEROUS, else NO_FLY. *)
Definition tier_of_aggregate (aggregate : Z) : FlightSafety :=
  if (80 <=? aggregate)%Z then SAFE
  else if (60 <=? aggregate)%Z then CAUTION
  else if (30 <=? aggregate)%Z then DANGEROUS
  else NO_FLY.


(** [sum(scores)] of the source as a function of the five sub-scores:
    each product and each addition is one binary64 operation. *)
Definition weighted_total (wind_score visibility_score temp_score
  precip_score cloud_score : Q) : Q :=
  Py.sum [Py.fmul wind_score (Py.float (3 # 10));
          Py.fmul visibility_score (Py.float (25 # 100));
          Py.fmul temp_score (Py.float (15 # 100));
          Py.fmul precip_score (Py.float (20 # 100));
          Py.fmul cloud_score (Py.float (10 # 100))].


(** The wind sub-score at the default thresholds, as a function of the
    effective wind. *)
Definition wind_subscore (e : Q) : Z :=
  if Py.le e 15 then 100%Z
  else if Py.le e 25 then (70 - Py.int ((e - 15) * 3))%Z
  else if Py.le e 35 then (40 - Py.int ((e - 25) * 2))%Z
  else 0%Z.

(** The domain of the data model: visibility and the two precipitation
    channels are non-negative, cloudiness is a percentage. *)
Definition in_domain (r : WeatherData) : bool :=
  Py.le 0 (visibility r)
  && Py.le 0 (rain_1h (precipitation r))
  && Py.le 0 (snow_1h (precipitation r))
  && Py.le 0 (cloudiness r) && Py.le (cloudiness r) 100.

(* ------------------------------------------------------------------ *)
(** ** The alert rules as a pure list

    Each rule of [check_weather_alerts] contributes at most one alert;
    [alert_rules] lists level, title and message of the alerts a reading
    raises, in rule order.  Lemma [check_weather_alerts_run] shows that the
    evaluator returns exactly this list, stamped with successive clock
    readings. *)

Definition AlertSpec : Type := AlertLevel * string * string.

Definition wind_rule (r : WeatherData) : list AlertSpec :=
  let wind_speed := speed (wind r) in
  if Py.gt wind_speed 40 then
    [(EMERGENCY, "Extreme Wind Warning",
      "Wind speed " ++ Py.format_1f wind_speed
        ++ " km/h exceeds safe limits. DO NOT FLY.")]
  else if Py.gt wind_speed 30 then
    [(CRITICAL, "High Wind Warning",
      "Wind speed " ++ Py.format_1f wind_speed
        ++ " km/h. Flight operations not recommended.")]
  else if Py.gt wind_speed 20 then
    [(WARNING, "Wind Advisory",
      "Wind speed " ++ Py.format_1f wind_speed
        ++ " km/h. Exercise extreme caution.")]
  else [].

Definition visibility_rule (r : WeatherData) : list AlertSpec :=
  let visibility := visibility r in
  if Py.lt visibility 1 then
    [(CRITICAL, "Low Visibility Warning",
      "Visibility " ++ Py.format_1f visibility
        ++ " km. Visual flight rules not recommended.")]
  else if Py.lt visibility 3 then
    [(WARNING, "Reduced Visibility",
      "Visibility " ++ Py.format_1f visibility
        ++ " km. Maintain visual observers.")]
  else [].

Definition temperature_rule (r : WeatherData) : list AlertSpec :=
  let temp := current (temperature r) in
  if Py.lt temp (-15) then
    [(CRITICAL, "Extreme Cold Warning",
      "Temperature " ++ Py.format_1f temp
        ++ "°C. Battery and equipment failure risk.")]
  else if Py.gt temp 45 then
    [(CRITICAL, "Extreme Heat Warning",
      "Temperature " ++ Py.format_1f temp
        ++ "°C. Overheating risk for electronics.")]
  else [].

Definition precipitation_rule (r : WeatherData) : list AlertSpec :=
  let rain := rain_1h (precipitation r) in
  let snow := snow_1h (precipitation r) in
  if orb (Py.gt rain 10) (Py.gt snow 10) then
    [(CRITICAL, "Heavy Precipitation Warning",
      "Heavy rain/snow detected. Equipment damage risk.")]
  else if orb (Py.gt rain (25 # 10)) (Py.gt snow (25 # 10)) then
    [(WARNING, "Precipitation Advisory",
      "Moderate precipitation. Protect equipment from moisture.")]
  else [].

Definition pressure_rule (r : WeatherData) : list AlertSpec :=
  let pressure := pressure r in
  if Py.lt (Py.value pressure) 980 then
    [(WARNING, "Low Pressure System",
      "Low barometric pressure " ++ Py.str pressure
        ++ " hPa. Storm system possible.")]
  else if Py.gt (Py.value pressure) 1030 then
    [(INFO, "High Pressure System",
      "High barometric pressure " ++ Py.str pressure
        ++ " hPa. Stable conditions expected.")]
  else [].

Definition category_rule (r : WeatherData) : list AlertSpec :=
  let weather_main := Py.lower (main (weather r)) in
  if Py.contains "thunderstorm" weather_main then
    [(EMERGENCY, "Thunderstorm Warning",
      "Thunderstorm conditions detected. IMMEDIATE LANDING REQUIRED.")]
  else if Py.contains "tornado" weather_main then
    [(EMERGENCY, "Tornado Warning",
      "Tornado activity detected. SEEK IMMEDIATE SHELTER.")]
  else [].

Definition alert_rules (r : WeatherData) : list AlertSpec :=
  (wind_rule r ++ visibility_rule r ++ temperature_rule r
     ++ precipitation_rule r ++ pressure_rule r ++ category_rule r)%list.

(** The alerts of a list of rules constructed one after the other, the
    first at clock reading [n]. *)
Fixpoint stamp (clk : nat -> string) (n : nat) (specs : list AlertSpec)
  : list WeatherAlert :=
  match specs with
  | [] => []
  | (l, t, m) :: rest =>
      {| level := l; title := t; message := m; timestamp := clk n |}
        :: stamp clk (S n) rest
  end.

(** Appending the alerts of a list of rules, one constructor call each. *)
Fixpoint emit (alerts : list WeatherAlert) (specs : list AlertSpec)
  : M (list WeatherAlert) :=
  match specs with
  | [] => ret alerts
  | (l, t, m) :: rest =>
      alerts' <- append_alert alerts l t m ;;
      emit alerts' rest
  end.

(** The world after [k] more clock readings. *)
Definition tick (k : nat) (w : World) : World :=
  {| clock := clock w; reads := k + reads w;
     active_alerts := active_alerts w |}.

(** The same reading with another gust. *)
Definition with_gust (r : WeatherData) (g : Q) : WeatherData :=
  {| wind := {| speed := speed (wind r); gust := g |};
     visibility := visibility r;
     temperature := temperature r;
     precipitation := precipitation r;
     cloudiness := cloudiness r;
     pressure := pressure r;
     weather := weather r |}.

(** Level, title and message of an alert: all but the timestamp. *)
Definition content (a : WeatherAlert) : AlertSpec :=
  (level a, title a, message a).

Definition is_wind_alert (a : WeatherAlert) : bool :=
  (title a =? "Extreme Wind Warning")%string
  || (title a =? "High Wind Warning")%string
  || (title a =? "Wind Advisory")%string.

(** Lines of the recommendation generator, recognised by how they
    begin. *)
Definition is_wind_line (s : string) : bool :=
  Py.startswith s "⚠️ High wind speeds ("
  || Py.startswith s "🌪️ Moderate winds (".

Definition is_closing_line (s : string) : bool :=
  existsb (String.eqb s) (map closing_line [SAFE; CAUTION; DANGEROUS; NO_FLY]).

(** The advisory lines split in two: the line of the wind check, and the
    lines of the four checks after it. *)
Definition wind_lines (self : FlightAnalyzer) (r : WeatherData) : list string :=
  let wind_speed := speed (wind r) in
  if Py.gt wind_speed (wind_caution (wind_limits self)) then
    [high_wind_line wind_speed]
  else if Py.gt wind_speed (wind_safe (wind_limits self)) then
    [moderate_wind_line wind_speed]
  else [].

Definition other_lines (self : FlightAnalyzer) (r : WeatherData) : list string :=
  ((if Py.lt (visibility r) (vis_caution (visibility_limits self))
    then [low_visibility_line (visibility r)] else [])
   ++ (if Py.lt (current (temperature r)) (min_safe (temp_limits self))
       then [cold_line (current (temperature r))]
       else if Py.gt (current (temperature r)) (max_safe (temp_limits self))
       then [hot_line (current (temperature r))] else [])
   ++ (if Py.gt (rain_1h (precipitation r)) 0
       then [rain_line (rain_1h (precipitation r))] else [])
   ++ (if Py.gt (snow_1h (precipitation r)) 0
       then [snow_line (snow_1h (precipitation r))] else []))%list.

(* ------------------------------------------------------------------ *)
(** ** Readings used in the examples *)

Definition mk_reading (wind_speed wind_gust vis temp rain snow cloud : Q)
  (press : Py.num) (weather_main : string) : WeatherData :=
  {| wind := {| speed := wind_speed; gust := wind_gust |};
     visibility := vis;
     temperature := {| current := temp |};
     precipitation := {| rain_1h := rain; snow_1h := snow |};
     cloudiness := cloud;
     pressure := press;
     weather := {| main := weather_main |} |}.

(** The end-to-end example of the specification. *)
Definition clear_day : WeatherData :=
  mk_reading 10 0 15 22 0 0 10 (Py.Int 1015) "Clear".

(** Wind 45 km/h on an otherwise benign day. *)
Definition gale (wind_gust cloud : Q) : WeatherData :=
  mk_reading 45 wind_gust 12 20 0 0 cloud (Py.Int 1013) "Clear".

(** A benign day but for the visibility, which is negative. *)
Definition negative_visibility : WeatherData :=
  mk_reading 10 0 (-1) 22 0 0 10 (Py.Int 1015) "Clear".

(** A benign day with wind 20 km/h: above the safe threshold, below the
    caution threshold. *)
Definition breeze : WeatherData :=
  mk_reading 20 0 15 22 0 0 10 (Py.Int 1015) "Clear".

(** Readings whose aggregate sits on either side of a tier boundary. *)
Definition at_80 : WeatherData :=
  mk_reading 10 0 15 22 60 0 10 (Py.Int 1015) "Rain".
Definition at_79 : WeatherData :=
  mk_reading 10 0 15 (-11) 60 0 10 (Py.Int 1015) "Rain".
Definition at_60 : WeatherData :=
  mk_reading 10 0 2 (-11) 60 0 40 (Py.Int 1015) "Rain".
Definition at_59 : WeatherData :=
  mk_reading 10 0 2 (-12) 60 0 40 (Py.Int 1015) "Rain".
Definition at_30 : WeatherData :=
  mk_reading 40 0 (1 # 2) 22 5 0 90 (Py.Int 1015) "Rain".
Definition at_29 : WeatherData :=
  mk_reading 40 0 (1 # 2) (-11) 5 0 90 (Py.Int 1015) "Rain".


(** A clock whose readings differ from call to call. *)
Definition ticking (n : nat) : string :=
  "2026-01-01T12:00:00.00000" ++ Py.digits (Z.of_nat n).

Definition world0 : World :=
  {| clock := ticking; reads := 0; active_alerts := [] |}.

(* ------------------------------------------------------------------ *)
(** ** Orders and helpers used by the further properties *)

(** The tiers from worst to best. *)
Definition tier_rank (t : FlightSafety) : Z :=
  match t with
  | NO_FLY => 0
  | DANGEROUS => 1
  | CAUTION => 2
  | SAFE => 3
  end%Z.

(** The exact sum of rain and snow, before the rounding of the float
    addition. *)
Definition total_precip (p : Precipitation) : Q := rain_1h p + snow_1h p.

(** The same reading with another category label. *)
Definition with_main (r : WeatherData) (m : string) : WeatherData :=
  {| wind := wind r;
     visibility := visibility r;
     temperature := temperature r;
     precipitation := precipitation r;
     cloudiness := cloudiness r;
     pressure := pressure r;
     weather := {| main := m |} |}.

(** [calculate_density_altitude]; [elevation_m] defaults to 0 in the
    source and is not read by the body.  The pressure and the temperature
    are converted to floats by the first operation that meets them. *)
Definition calculate_density_altitude
  (pressure_hpa temperature_c elevation_m : Q) : Q :=
  (* Convert pressure to inHg *)
  let pressure_inhg := Py.fmul pressure_hpa (Py.float (2953 # 100000)) in
  (* Calculate pressure altitude *)
  let pressure_altitude :=
    Py.fmul (Py.fsub (Py.float (2992 # 100)) pressure_inhg) 1000 in
  (* Calculate density altitude *)
  let density_altitude :=
    Py.fadd pressure_altitude
      (Py.fmul 120
         (Py.fsub temperature_c
            (Py.fsub 15
               (Py.fmul pressure_altitude (Py.float (198 # 100000)))))) in
  density_altitude.

(* ------------------------------------------------------------------ *)
(** ** Dictionaries and strings of the reporting code *)

Module Dict.

(** A dictionary as the list of its items in insertion order; keys are
    distinct. *)

(** [d.get(k, default)] *)
Fixpoint get {K V : Type} (eqb : K -> K -> bool) (d : list (K * V)) (k : K)
  (default : V) : V :=
  match d with
  | [] => default
  | (k', v) :: d' => if eqb k' k then v else get eqb d' k default
  end.

(** [d[k] = v]: the value of a key already present is replaced in place, a
    new key is added at the end. *)
Fixpoint set {K V : Type} (eqb : K -> K -> bool) (d : list (K * V)) (k : K)
  (v : V) : list (K * V) :=
  match d with
  | [] => [(k, v)]
  | (k', v') :: d' =>
      if eqb k' k then (k', v) :: d' else (k', v') :: set eqb d' k v
  end.

End Dict.

(** The line feed. *)
Definition LF : ascii := ascii_of_nat 10.

(** [sep.join(parts)] *)
Fixpoint str_join (sep : string) (parts : list string) : string :=
  match parts with
  | [] => ""
  | [p] => p
  | p :: rest => p ++ sep ++ str_join sep rest
  end.

(** [s.split(c)] for a one-character separator. *)
Fixpoint str_split (c : ascii) (s : string) : list string :=
  match s with
  | EmptyString => [""]
  | String a s' =>
      if Ascii.eqb a c then "" :: str_split c s'
      else match str_split c s' with
           | l :: ls => String a l :: ls
           | [] => [String a ""]
           end
  end.

(** The string has no occurrence of the character. *)
Fixpoint free_of (c : ascii) (s : string) : bool :=
  match s with
  | EmptyString => true
  | String a s' => negb (Ascii.eqb a c) && free_of c s'
  end.

(* ------------------------------------------------------------------ *)
(** ** Alert summary and alert display (src/Weather_alerts.py) *)

(** [AlertLevel.value] *)
Definition AlertLevel_value (l : AlertLevel) : string :=
  match l with
  | INFO => "INFO"
  | WARNING => "WARNING"
  | CRITICAL => "CRITICAL"
  | EMERGENCY => "EMERGENCY"
  end.

Definition AlertLevel_eqb (a b : AlertLevel) : bool :=
  match a, b with
  | INFO, INFO | WARNING, WARNING | CRITICAL, CRITICAL
  | EMERGENCY, EMERGENCY => true
  | _, _ => false
  end.

(** The emoji dictionary of [get_alert_summary], keyed by level name. *)
Definition summary_emoji : list (string * string) :=
  [("INFO", "ℹ️"); ("WARNING", "⚠️"); ("CRITICAL", "🚨");
   ("EMERGENCY", "🆘")].

(** The emoji dictionary of [format_alerts], keyed by level. *)
Definition format_emoji : list (AlertLevel * string) :=
  [(INFO, "ℹ️"); (WARNING, "⚠️"); (CRITICAL, "🚨");
   (EMERGENCY, "🆘")].

(** One turn of the counting loop of [get_alert_summary]:
    [alert_counts[level] = alert_counts.get(level, 0) + 1]. *)
Definition count_step (alert_counts : list (string * Z)) (alert : WeatherAlert)
  : list (string * Z) :=
  let level := AlertLevel_value (level alert) in
  Dict.set String.eqb alert_counts level
    (Dict.get String.eqb alert_counts level 0 + 1)%Z.

(** The counting loop, from the empty dictionary. *)
Definition count_levels (alerts : list WeatherAlert) : list (string * Z) :=
  fold_left count_step alerts [].

Definition get_alert_summary (w : World) : string :=
  match active_alerts w with
  | [] => "✅ No active weather alerts"
  | _ :: _ =>
      let alert_counts := count_levels (active_alerts w) in
      let summary_parts :=
        map (fun item : string * Z =>
               let (level, count) := item in
               let emoji := Dict.get String.eqb summary_emoji level "📢" in
               emoji ++ " " ++ Py.str (Py.Int count) ++ " " ++ level)
            alert_counts in
      "Active Alerts: " ++ str_join ", " summary_parts
  end.

(** The list [formatted] of [format_alerts]: two lines per alert. *)
Definition formatted_lines (alerts : list WeatherAlert) : list string :=
  fold_left
    (fun formatted alert =>
       let emoji :=
         Dict.get AlertLevel_eqb format_emoji (level alert) "📢" in
       ((formatted
           ++ [(emoji ++ " " ++ AlertLevel_value (level alert) ++ ": "
                  ++ title alert)%string])
          ++ [("   " ++ message alert)%string])%list)
    alerts [].

Definition format_alerts (w : World) : string :=
  match active_alerts w with
  | [] => "✅ No weather alerts"
  | _ :: _ => str_join (String LF "") (formatted_lines (active_alerts w))
  end.

(** The two lines [format_alerts] appends for one alert. *)
Definition alert_lines (alert : WeatherAlert) : list string :=
  let emoji := Dict.get AlertLevel_eqb format_emoji (level alert) "📢" in
  [emoji ++ " " ++ AlertLevel_value (level alert) ++ ": " ++ title alert;
   "   " ++ message alert].

(* ------------------------------------------------------------------ *)
(** ** Tomorrow.io fetcher (src/tomorrow_io_fetcher.py)

    The decoded JSON objects are given by the keys the code tests or
    reads; a JSON number is a Python int or float.  Every value of a
    response is taken to be a number: a null or a value of another type,
    on which the arithmetic of the source raises TypeError, is outside
    the type [Values] below. *)

(** [k1 == k2] on numbers, the equality dictionary lookup uses: an int
    key is found by the float of the same value. *)
Definition num_eqb (a b : Py.num) : bool := Py.eq (Py.value a) (Py.value b).

Definition weather_codes : list (Py.num * string) :=
  [(Py.Int 0, "Unknown"); (Py.Int 1000, "Clear"); (Py.Int 1001, "Cloudy");
   (Py.Int 1100, "Mostly Clear"); (Py.Int 1101, "Partly Cloudy");
   (Py.Int 1102, "Mostly Cloudy"); (Py.Int 2000, "Fog");
   (Py.Int 2100, "Light Fog"); (Py.Int 3000, "Light Wind");
   (Py.Int 3001, "Wind"); (Py.Int 3002, "Strong Wind");
   (Py.Int 4000, "Drizzle"); (Py.Int 4001, "Rain");
   (Py.Int 4200, "Light Rain"); (Py.Int 4201, "Heavy Rain");
   (Py.Int 5000, "Snow"); (Py.Int 5001, "Flurries");
   (Py.Int 5100, "Light Snow"); (Py.Int 5101, "Heavy Snow");
   (Py.Int 6000, "Freezing Drizzle"); (Py.Int 6001, "Freezing Rain");
   (Py.Int 6200, "Light Freezing Rain");
   (Py.Int 6201, "Heavy Freezing Rain"); (Py.Int 7000, "Ice Pellets");
   (Py.Int 7101, "Heavy Ice Pellets"); (Py.Int 7102, "Light Ice Pellets");
   (Py.Int 8000, "Thunderstorm")].

Definition _get_weather_code_description (code : Py.num) : string :=
  Dict.get num_eqb weather_codes code "Unknown".

(** The object [data['data']['values']]: field names to numbers. *)
Definition Values : Type := list (string * Py.num).

(** [values.get(key)]: [None] for an absent key. *)
Fixpoint values_find (values : Values) (key : string) : option Py.num :=
  match values with
  | [] => None
  | (k, v) :: rest => if String.eqb k key then Some v else values_find rest key
  end.

(** Truth value of [values.get(key)]: an absent key and a zero are
    falsy. *)
Definition truthy (x : option Py.num) : bool :=
  match x with
  | None => false
  | Some n => negb (Py.eq (Py.value n) 0)
  end.

(** The keys of the processed reading that the core reads, as the
    dictionary literal of [_process_tomorrowio_data] fills them.  The
    conversions (times 3.6, times 100, divided by 1000) are taken at
    their exact value, without the rounding of the float operation. *)
Definition processed_reading (weather_data : Values) : WeatherData :=
  {| weather :=
       {| main := _get_weather_code_description
                    (Dict.get String.eqb weather_data "weatherCode" (Py.Int 0)) |};
     temperature :=
       {| current :=
            Py.value (Dict.get String.eqb weather_data "temperature" (Py.Int 0)) |};
     wind :=
       {| speed :=
            Py.value (Dict.get String.eqb weather_data "windSpeed" (Py.Int 0))
            * (36 # 10);
          gust :=
            if truthy (values_find weather_data "windGust") then
              Py.value (Dict.get String.eqb weather_data "windGust" (Py.Int 0))
              * (36 # 10)
            else 0 |};
     visibility :=
       Py.value (Dict.get String.eqb weather_data "visibility" (Py.Int 10))
       / 1000;
     pressure :=
       Dict.get String.eqb weather_data "pressureSurfaceLevel" (Py.Int 1013);
     cloudiness :=
       Py.value (Dict.get String.eqb weather_data "cloudCover" (Py.Int 0)) * 100;
     precipitation :=
       {| rain_1h :=
            Py.value (Dict.get String.eqb weather_data "rainIntensity" (Py.Int 0));
          snow_1h :=
            Py.value (Dict.get String.eqb weather_data "snowIntensity" (Py.Int 0)) |}
  |}.

(** The errors the processing functions raise for a missing key. *)
Inductive FetchError : Type :=
| ValueError (msg : string)
| KeyError (key : string).

Inductive attempt (A : Type) : Type :=
| Done (a : A)
| Failed (e : FetchError).

Arguments Done {A} a.
Arguments Failed {A} e.

(** One entry of the daily timeline: its 'time' and its 'values', if
    present. *)
Record Day : Type :=
  { day_time : option string;
    day_values : option Values }.

(** The forecast response: the object under 'timelines', if any, with its
    list 'daily', if any. *)
Record ForecastResponse : Type :=
  { timelines_daily : option (option (list Day)) }.

Record Forecast : Type :=
  { f_datetime : string;
    f_temperature : Py.num;
    f_weather : string;
    f_wind_speed : Q;
    f_wind_direction : Py.num;
    f_humidity : Q;
    f_pressure : Py.num;
    f_precipitation : Q;
    f_cloudiness : Q }.

(** [l[:n]]: the first [n] elements, or all but the last [-n] when [n] is
    negative. *)
Definition slice_to {A : Type} (l : list A) (n : Z) : list A :=
  if (0 <=? n)%Z then firstn (Z.to_nat n) l
  else firstn (List.length l - Z.to_nat (- n)) l.

(** The dictionary literal of the loop of [_process_forecast_data], with
    the conversions at their exact value. *)
Definition forecast_entry (time : string) (values : Values) : Forecast :=
  {| f_datetime := time;
     f_temperature := Dict.get String.eqb values "temperatureAvg" (Py.Int 0);
     f_weather :=
       _get_weather_code_description
         (Dict.get String.eqb values "weatherCode" (Py.Int 0));
     f_wind_speed :=
       Py.value (Dict.get String.eqb values "windSpeedAvg" (Py.Int 0))
       * (36 # 10);
     f_wind_direction :=
       Dict.get String.eqb values "windDirectionAvg" (Py.Int 0);
     f_humidity :=
       Py.value (Dict.get String.eqb values "humidityAvg" (Py.Int 0)) * 100;
     f_pressure :=
       Dict.get String.eqb values "pressureSurfaceLevelAvg" (Py.Int 1013);
     f_precipitation :=
       Py.value (Dict.get String.eqb values "rainIntensityAvg" (Py.Int 0))
       + Py.value (Dict.get String.eqb values "snowIntensityAvg" (Py.Int 0));
     f_cloudiness :=
       Py.value (Dict.get String.eqb values "cloudCoverAvg" (Py.Int 0)) * 100 |}.

(** The loop over the sliced days: [day['values']] is read first, then
    [day['time']]. *)
Fixpoint forecast_loop (days : list Day) (forecast_list : list Forecast)
  : attempt (list Forecast) :=
  match days with
  | [] => Done forecast_list
  | day :: rest =>
      match day_values day with
      | None => Failed (KeyError "values")
      | Some values =>
          match day_time day with
          | None => Failed (KeyError "time")
          | Some time =>
              forecast_loop rest
                (forecast_list ++ [forecast_entry time values])
          end
      end
  end.

Definition _process_forecast_data (data : ForecastResponse) (days : Z)
  : attempt (list Forecast) :=
  let forecast_list : list Forecast := [] in
  match timelines_daily data with
  | None | Some None => Done forecast_list
  | Some (Some daily) => forecast_loop (slice_to daily days) forecast_list
  end.

(** A day with both keys. *)
Definition complete (day : Day) : bool :=
  match day_time day, day_values day with
  | Some _, Some _ => true
  | _, _ => false
  end.

(* ------------------------------------------------------------------ *)
(** ** Command loop and history (src/main.py) *)

(** [c.isspace()] for an ASCII character: tab to carriage return, the four
    separators 28 to 31, and the blank. *)
Definition is_space (c : ascii) : bool :=
  let n := nat_of_ascii c in
  (Nat.leb 9 n && Nat.leb n 13) || (Nat.leb 28 n && Nat.leb n 32).

(** [s.lstrip()], [s.rstrip()] and [s.strip()] on ASCII strings. *)
Fixpoint lstrip (s : string) : string :=
  match s with
  | EmptyString => EmptyString
  | String c s' => if is_space c then lstrip s' else s
  end.

Fixpoint rstrip (s : string) : string :=
  match s with
  | EmptyString => EmptyString
  | String c s' =>
      match rstrip s' with
      | EmptyString => if is_space c then EmptyString else String c EmptyString
      | r => String c r
      end
  end.

Definition strip (s : string) : string := rstrip (lstrip s).

(** [s[n:]] *)
Fixpoint drop (n : nat) (s : string) : string :=
  match n, s with
  | O, _ => s
  | S _, EmptyString => EmptyString
  | S k, String _ s' => drop k s'
  end.

(** All bytes below 128. *)
Fixpoint is_ascii (s : string) : bool :=
  match s with
  | EmptyString => true
  | String c s' => Nat.ltb (nat_of_ascii c) 128 && is_ascii s'
  end.

(** What one turn of the loop of [run] does with the line read. *)
Inductive Command : Type :=
| Quit
| ShowHelp
| GetCurrentWeather (location : string)
| GetForecast (location : string)
| GetMultiLocationWeather
| ShowActiveAlerts
| ShowHistory
| ShowConfiguration
| UnknownCommand.

Definition dispatch (line : string) : Command :=
  let command := Py.lower (strip line) in
  if existsb (String.eqb command) ["quit"; "exit"; "q"] then Quit
  else if String.eqb command "help" then ShowHelp
  else if Py.startswith command "weather " then
    let location := strip (drop 8 command) in
    GetCurrentWeather location
  else if Py.startswith command "forecast " then
    let location := strip (drop 9 command) in
    GetForecast location
  else if String.eqb command "multi" then GetMultiLocationWeather
  else if String.eqb command "alerts" then ShowActiveAlerts
  else if String.eqb command "history" then ShowHistory
  else if String.eqb command "config" then ShowConfiguration
  else UnknownCommand.


(** The string is not empty and its last character is not a space. *)
Fixpoint ends_nonspace (s : string) : bool :=
  match s with
  | EmptyString => false
  | String c EmptyString => negb (is_space c)
  | String _ s' => ends_nonspace s'
  end.

(* ================================================================== *)
(** * Sanity checks of the builtins *)

Example format_1f_45 : Py.format_1f 45 = "45.0".
Proof. reflexivity. Qed.

Example format_1f_tie_even : Py.format_1f (1 # 4) = "0.2".
Proof. reflexivity. Qed.

Example format_1f_tie_odd : Py.format_1f (3 # 4) = "0.8".
Proof. reflexivity. Qed.

Example format_1f_negative : Py.format_1f (- (123 # 10)) = "-12.3".
Proof. reflexivity. Qed.

Example str_int_1013 : Py.str (Py.Int 1013) = "1013".
Proof. reflexivity. Qed.

Example str_float_975_5 : Py.str (Py.Float (9755 # 10)) = "975.5".
Proof. reflexivity. Qed.

Example str_float_integral : Py.str (Py.Float 1031) = "1031.0".
Proof. reflexivity. Qed.

Example contains_thunderstorm :
  Py.contains "thunderstorm" (Py.lower "Severe Thunderstorm") = true.
Proof. reflexivity. Qed.

Example int_truncates_toward_zero :
  Py.int (79 # 10) = 7%Z /\ Py.int (- (79 # 10)) = (-7)%Z.
Proof. split; reflexivity. Qed.

(* ================================================================== *)
(** * Facts about the builtins *)

Lemma le_true (x y : Q) : Py.le x y = true <-> x <= y.
Proof. unfold Py.le. apply Qle_bool_iff. Qed.

Lemma le_false (x y : Q) : Py.le x y = false <-> y < x.
Proof.
  unfold Py.le. split; intro H.
  - apply Qnot_le_lt. intro Hle. apply Qle_bool_iff in Hle. congruence.
  - destruct (Qle_bool x y) eqn:E; [|reflexivity].
    apply Qle_bool_iff in E. exfalso. apply (Qlt_not_le _ _ H E).
Qed.

Lemma lt_true (x y : Q) : Py.lt x y = true <-> x < y.
Proof.
  unfold Py.lt. rewrite negb_true_iff. apply (le_false y x).
Qed.

Lemma lt_false (x y : Q) : Py.lt x y = false <-> y <= x.
Proof.
  unfold Py.lt. rewrite negb_false_iff. apply (le_true y x).
Qed.

Lemma eq_true (x y : Q) : Py.eq x y = true <-> x == y.
Proof. unfold Py.eq. apply Qeq_bool_iff. Qed.

(** Case analysis on a Python comparison, leaving the order fact as a
    hypothesis. *)
Ltac py_case c :=
  let E := fresh "E" in
  destruct c eqn:E;
  unfold Py.ge, Py.gt in E;
  first [ apply le_true in E | apply le_false in E
        | apply lt_true in E | apply lt_false in E ].

Lemma int_floor (x : Q) : 0 <= x -> Py.int x = Qfloor x.
Proof.
  destruct x as [n d]. unfold Qle. simpl. intro H.
  unfold Py.int. simpl. apply Z.quot_div_nonneg; lia.
Qed.

Lemma floor_ge (z : Z) (x : Q) : inject_Z z <= x <-> (z <= Qfloor x)%Z.
Proof.
  split; intro H.
  - rewrite <- (Qfloor_Z z). apply Qfloor_resp_le. exact H.
  - apply Qle_trans with (inject_Z (Qfloor x)).
    + rewrite <- Zle_Qle. exact H.
    + apply Qfloor_le.
Qed.

Lemma floor_le (z : Z) (x : Q) : x <= inject_Z z -> (Qfloor x <= z)%Z.
Proof.
  intro H. rewrite <- (Qfloor_Z z). apply Qfloor_resp_le. exact H.
Qed.

Lemma max0_range (x : Q) : x <= 100 -> 0 <= Py.max 0 x <= 100.
Proof.
  intro H. unfold Py.max. py_case (Py.gt x 0); split; lra.
Qed.

(* ================================================================== *)
(** * Binary64 rounding *)

Lemma pow2_pos (e : Z) : 0 < Py.pow2 e.
Proof. apply Qpower_0_lt. reflexivity. Qed.

Lemma pow2_add (a b : Z) : Py.pow2 (a + b) == Py.pow2 a * Py.pow2 b.
Proof. apply Qpower_plus. discriminate. Qed.

Lemma pow2_lt (a b : Z) : (a < b)%Z -> Py.pow2 a < Py.pow2 b.
Proof. intro H. apply Qpower_lt_compat_l; [exact H|reflexivity]. Qed.

Lemma pow2_le (a b : Z) : (a <= b)%Z -> Py.pow2 a <= Py.pow2 b.
Proof. intro H. apply Qpower_le_compat_l; [exact H|discriminate]. Qed.

Lemma pow2_lt_inv (a b : Z) : Py.pow2 a < Py.pow2 b -> (a < b)%Z.
Proof. intro H. apply (Qpower_lt_compat_l_inv 2); [exact H|reflexivity]. Qed.

Lemma pow2_Z (a : Z) : (0 <= a)%Z -> inject_Z (2 ^ a) == Py.pow2 a.
Proof. intro H. unfold Py.pow2. rewrite Zpower_Qpower by exact H. reflexivity. Qed.

Lemma ilog2_spec (x : Q) :
  0 < x -> Py.pow2 (Py.ilog2 x) <= x /\ x < Py.pow2 (Py.ilog2 x + 1).
Proof.
  intro Hx. destruct x as [n d].
  assert (Hn : (0 < n)%Z).
  { unfold Qlt in Hx. simpl in Hx. lia. }
  unfold Py.ilog2. cbn [Qnum Qden].
  set (a := Z.log2 n). set (b := Z.log2 (Zpos d)).
  destruct (Z.log2_spec n Hn) as [A1 A2]. fold a in A1, A2.
  destruct (Z.log2_spec (Zpos d) eq_refl) as [B1 B2]. fold b in B1, B2.
  assert (Ha : (0 <= a)%Z) by apply Z.log2_nonneg.
  assert (Hb : (0 <= b)%Z) by apply Z.log2_nonneg.
  rewrite Zle_Qle in A1, B1. rewrite Zlt_Qlt in A2, B2.
  rewrite <- Z.add_1_r in A2, B2.
  rewrite pow2_Z in A1, B1, A2, B2 by lia.
  assert (E : n # d == inject_Z n / inject_Z (Zpos d)) by apply Qmake_Qdiv.
  assert (D : 0 < inject_Z (Zpos d)) by reflexivity.
  set (N := inject_Z n) in *. set (Dd := inject_Z (Zpos d)) in *.
  assert (M : (n # d) * Dd == N).
  { rewrite E. field. intro H. rewrite H in D. discriminate D. }
  pose proof (pow2_pos (a - b)) as P0.
  pose proof (pow2_pos (a - b - 1)) as P1.
  pose proof (pow2_pos (a - b + 1)) as P2.
  pose proof (pow2_pos b) as Pb.
  assert (K0 : Py.pow2 a == Py.pow2 (a - b) * Py.pow2 b).
  { rewrite <- pow2_add. replace (a - b + b)%Z with a by lia. reflexivity. }
  assert (K1 : Py.pow2 a == Py.pow2 (a - b - 1) * Py.pow2 (b + 1)).
  { rewrite <- pow2_add. replace (a - b - 1 + (b + 1))%Z with a by lia. reflexivity. }
  assert (K2 : Py.pow2 (a + 1) == Py.pow2 (a - b + 1) * Py.pow2 b).
  { rewrite <- pow2_add. replace (a - b + 1 + b)%Z with (a + 1)%Z by lia. reflexivity. }
  assert (U : n # d < Py.pow2 (a - b + 1)).
  { apply Qnot_le_lt. intro G.
    assert (Py.pow2 (a - b + 1) * Py.pow2 b <= (n # d) * Dd).
    { apply Qle_trans with (Py.pow2 (a - b + 1) * Dd).
      - apply Qmult_le_l; assumption.
      - apply Qmult_le_r; assumption. }
    lra. }
  assert (L : Py.pow2 (a - b - 1) <= n # d).
  { apply Qnot_lt_le. intro G.
    assert ((n # d) * Dd < Py.pow2 (a - b - 1) * Py.pow2 (b + 1)).
    { apply Qlt_trans with (Py.pow2 (a - b - 1) * Dd).
      - apply Qmult_lt_r; assumption.
      - apply Qmult_lt_l; assumption. }
    lra. }
  destruct (Py.le (Py.pow2 (a - b)) (n # d)) eqn:C.
  - apply le_true in C. split; assumption.
  - apply le_false in C. split; [exact L|].
    replace (a - b - 1 + 1)%Z with (a - b)%Z by lia. exact C.
Qed.

Lemma rhe_cases (x : Q) :
  (Py.round_half_even x = Qfloor x /\ x - inject_Z (Qfloor x) <= 1 # 2)
  \/ (Py.round_half_even x = (Qfloor x + 1)%Z /\ 1 # 2 <= x - inject_Z (Qfloor x)).
Proof.
  unfold Py.round_half_even. cbv zeta.
  destruct (Py.lt (x - inject_Z (Qfloor x)) (1 # 2)) eqn:E1.
  { apply lt_true in E1. left. split; [reflexivity|lra]. }
  apply lt_false in E1.
  destruct (Py.lt (1 # 2) (x - inject_Z (Qfloor x))) eqn:E2.
  { right. split; [reflexivity|exact E1]. }
  apply lt_false in E2.
  destruct (Z.even (Qfloor x)); [left|right]; split; try reflexivity; assumption.
Qed.

Lemma floor_bounds (x : Q) :
  inject_Z (Qfloor x) <= x /\ x < inject_Z (Qfloor x) + 1.
Proof.
  split; [apply Qfloor_le|].
  pose proof (Qlt_floor x) as H. rewrite inject_Z_plus in H. exact H.
Qed.


Lemma rhe_Z (n : Z) : Py.round_half_even (inject_Z n) = n.
Proof.
  unfold Py.round_half_even. cbv zeta. rewrite Qfloor_Z.
  assert (E : Py.lt (inject_Z n - inject_Z n) (1 # 2) = true)
    by (apply lt_true; lra).
  rewrite E. reflexivity.
Qed.

Lemma rhe_monotone (x y : Q) :
  x <= y -> (Py.round_half_even x <= Py.round_half_even y)%Z.
Proof.
  intro H.
  pose proof (Qfloor_resp_le x y H) as F.
  destruct (floor_bounds x) as [X1 X2]. destruct (floor_bounds y) as [Y1 Y2].
  destruct (Z.eq_dec (Qfloor x) (Qfloor y)) as [E|N].
  - unfold Py.round_half_even. cbv zeta. rewrite E in *.
    set (f := Qfloor y) in *.
    destruct (Py.lt (x - inject_Z f) (1 # 2)) eqn:A1.
    + destruct (Py.lt (y - inject_Z f) (1 # 2)); [lia|].
      destruct (Py.lt (1 # 2) (y - inject_Z f)); [lia|].
      destruct (Z.even f); lia.
    + apply lt_false in A1.
      destruct (Py.lt (y - inject_Z f) (1 # 2)) eqn:B1.
      { apply lt_true in B1. lra. }
      destruct (Py.lt (1 # 2) (x - inject_Z f)) eqn:A2.
      * apply lt_true in A2.
        assert (B2 : Py.lt (1 # 2) (y - inject_Z f) = true) by (apply lt_true; lra).
        rewrite B2. lia.
      * destruct (Py.lt (1 # 2) (y - inject_Z f)); destruct (Z.even f); lia.
  - destruct (rhe_cases x) as [[Ex _]|[Ex _]];
      destruct (rhe_cases y) as [[Ey _]|[Ey _]]; rewrite Ex, Ey; lia.
Qed.

Lemma rhe_comp (x y : Q) : x == y -> Py.round_half_even x = Py.round_half_even y.
Proof.
  intro E. unfold Py.round_half_even, Py.lt. cbv zeta.
  rewrite (Qfloor_comp _ _ E).
  assert (R : x - inject_Z (Qfloor y) == y - inject_Z (Qfloor y))
    by (rewrite E; reflexivity).
  rewrite !R. reflexivity.
Qed.

Lemma pow2_nz (e : Z) : ~ Py.pow2 e == 0.
Proof. pose proof (pow2_pos e). lra. Qed.

Lemma round_at_monotone (e : Z) (x y : Q) :
  x <= y -> Py.round_at e x <= Py.round_at e y.
Proof.
  intro H. unfold Py.round_at. pose proof (pow2_pos e) as P.
  apply Qmult_le_compat_r; [|lra].
  rewrite <- Zle_Qle. apply rhe_monotone.
  apply Qmult_le_compat_r; [exact H|].
  apply Qlt_le_weak, Qinv_lt_0_compat, P.
Qed.

Lemma round_at_grid (e : Z) (n : Z) :
  Py.round_at e (inject_Z n * Py.pow2 e) == inject_Z n * Py.pow2 e.
Proof.
  unfold Py.round_at.
  assert (E : inject_Z n * Py.pow2 e / Py.pow2 e == inject_Z n)
    by (field; apply pow2_nz).
  rewrite (rhe_comp _ _ E), rhe_Z. reflexivity.
Qed.


Lemma round_pos_at (x : Q) : Py.round_pos x = Py.round_at (Py.ilog2 x - 52) x.
Proof. reflexivity. Qed.

Lemma round_pos_bounds (x : Q) :
  0 < x -> Py.pow2 (Py.ilog2 x) <= Py.round_pos x <= Py.pow2 (Py.ilog2 x + 1).
Proof.
  intro Hx. destruct (ilog2_spec x Hx) as [L U].
  rewrite round_pos_at. set (e := (Py.ilog2 x - 52)%Z).
  assert (G1 : Py.pow2 (Py.ilog2 x) == inject_Z (2 ^ 52) * Py.pow2 e).
  { rewrite pow2_Z by lia. rewrite <- pow2_add.
    replace (52 + e)%Z with (Py.ilog2 x) by (unfold e; lia). reflexivity. }
  assert (G2 : Py.pow2 (Py.ilog2 x + 1) == inject_Z (2 ^ 53) * Py.pow2 e).
  { rewrite pow2_Z by lia. rewrite <- pow2_add.
    replace (53 + e)%Z with (Py.ilog2 x + 1)%Z by (unfold e; lia). reflexivity. }
  split.
  - rewrite G1 at 1. rewrite <- round_at_grid.
    apply round_at_monotone. rewrite <- G1. exact L.
  - rewrite G2. rewrite <- (round_at_grid e (2 ^ 53)).
    apply round_at_monotone. rewrite <- G2. lra.
Qed.

Lemma ilog2_monotone (x y : Q) : 0 < x -> x <= y -> (Py.ilog2 x <= Py.ilog2 y)%Z.
Proof.
  intros Hx H.
  destruct (ilog2_spec x Hx) as [L _].
  destruct (ilog2_spec y) as [_ U]; [lra|].
  assert (P : Py.pow2 (Py.ilog2 x) < Py.pow2 (Py.ilog2 y + 1)) by lra.
  apply pow2_lt_inv in P. lia.
Qed.

Lemma round_pos_monotone (x y : Q) :
  0 < x -> x <= y -> Py.round_pos x <= Py.round_pos y.
Proof.
  intros Hx H.
  pose proof (ilog2_monotone x y Hx H) as I.
  destruct (Z.eq_dec (Py.ilog2 x) (Py.ilog2 y)) as [E|N].
  - rewrite !round_pos_at, E. apply round_at_monotone, H.
  - destruct (round_pos_bounds x Hx) as [_ U].
    destruct (round_pos_bounds y) as [L _]; [lra|].
    assert (P : Py.pow2 (Py.ilog2 x + 1) <= Py.pow2 (Py.ilog2 y)) by (apply pow2_le; lia).
    lra.
Qed.

Lemma round_pos_pos (x : Q) : 0 < x -> 0 < Py.round_pos x.
Proof.
  intro Hx. destruct (round_pos_bounds x Hx) as [L _].
  pose proof (pow2_pos (Py.ilog2 x)). lra.
Qed.

Lemma round64_pos (x : Q) : 0 < x -> Py.round64 x = Py.round_pos x.
Proof.
  intro H. unfold Py.round64.
  assert (E : Py.lt 0 x = true) by (apply lt_true; exact H).
  rewrite E. reflexivity.
Qed.

Lemma round64_neg (x : Q) : x < 0 -> Py.round64 x = - Py.round_pos (- x).
Proof.
  intro H. unfold Py.round64.
  assert (E : Py.lt 0 x = false) by (apply lt_false; lra).
  assert (E' : Py.lt x 0 = true) by (apply lt_true; exact H).
  rewrite E, E'. reflexivity.
Qed.

Lemma round64_zero (x : Q) : x == 0 -> Py.round64 x = 0.
Proof.
  intro H. unfold Py.round64.
  assert (E : Py.lt 0 x = false) by (apply lt_false; lra).
  assert (E' : Py.lt x 0 = false) by (apply lt_false; lra).
  rewrite E, E'. reflexivity.
Qed.

Lemma round64_sign (x : Q) :
  (0 < x /\ 0 < Py.round64 x) \/ (x == 0 /\ Py.round64 x = 0)
  \/ (x < 0 /\ Py.round64 x < 0).
Proof.
  destruct (Q_dec x 0) as [[H|H]|H].
  - right; right. split; [exact H|]. rewrite (round64_neg x H).
    assert (0 < Py.round_pos (- x)) by (apply round_pos_pos; lra). lra.
  - left. split; [exact H|]. rewrite (round64_pos x H).
    apply round_pos_pos, H.
  - right; left. split; [exact H|]. apply round64_zero, H.
Qed.

Lemma round64_monotone (x y : Q) : x <= y -> Py.round64 x <= Py.round64 y.
Proof.
  intro H.
  destruct (Q_dec x 0) as [[Hx|Hx]|Hx]; destruct (Q_dec y 0) as [[Hy|Hy]|Hy];
    try lra.
  - rewrite (round64_neg x Hx), (round64_neg y Hy).
    assert (Py.round_pos (- y) <= Py.round_pos (- x))
      by (apply round_pos_monotone; lra).
    lra.
  - rewrite (round64_neg x Hx), (round64_pos y Hy).
    assert (0 < Py.round_pos (- x)) by (apply round_pos_pos; lra).
    assert (0 < Py.round_pos y) by (apply round_pos_pos; lra). lra.
  - rewrite (round64_neg x Hx), (round64_zero y Hy).
    assert (0 < Py.round_pos (- x)) by (apply round_pos_pos; lra). lra.
  - rewrite (round64_pos x Hx), (round64_pos y Hy).
    apply round_pos_monotone; assumption.
  - rewrite (round64_zero x Hx), (round64_pos y Hy).
    assert (0 < Py.round_pos y) by (apply round_pos_pos; lra). lra.
  - rewrite (round64_zero x Hx), (round64_zero y Hy). lra.
Qed.


Lemma round64_nonneg (x : Q) : 0 <= x -> 0 <= Py.round64 x.
Proof.
  intro H. destruct (round64_sign x) as [[_ G]|[[_ G]|[G _]]];
    [lra | rewrite G; lra | lra].
Qed.

Lemma sum5 (a b c d e : Q) :
  Py.sum [a; b; c; d; e]
  = Py.fadd (Py.fadd (Py.fadd (Py.fadd (Py.fadd 0 a) b) c) d) e.
Proof. reflexivity. Qed.

(* ================================================================== *)
(** * The scoring engine *)

Section ScoringFacts.

Let A := FlightAnalyzer_init.

Lemma wind_caution_bracket (e : Q) :
  15 < e -> e <= 25 ->
  (0 <= Py.int ((e - 15) * 3) <= 30)%Z
  /\ Py.int ((e - 15) * 3) = Qfloor ((e - 15) * 3).
Proof.
  intros H1 H2.
  assert (H0 : 0 <= (e - 15) * 3) by lra.
  rewrite (int_floor _ H0). repeat split.
  - apply (floor_ge 0). exact H0.
  - apply floor_le. change (inject_Z 30) with 30. lra.
Qed.

Lemma wind_dangerous_bracket (e : Q) :
  25 < e -> e <= 35 ->
  (0 <= Py.int ((e - 25) * 2) <= 20)%Z
  /\ Py.int ((e - 25) * 2) = Qfloor ((e - 25) * 2).
Proof.
  intros H1 H2.
  assert (H0 : 0 <= (e - 25) * 2) by lra.
  rewrite (int_floor _ H0). repeat split.
  - apply (floor_ge 0). exact H0.
  - apply floor_le. change (inject_Z 20) with 20. lra.
Qed.

Lemma analyze_wind_subscore (w : Wind) :
  _analyze_wind A w = wind_subscore (effective_wind w).
Proof. reflexivity. Qed.

Lemma wind_subscore_range (e : Q) : (0 <= wind_subscore e <= 100)%Z.
Proof.
  unfold wind_subscore.
  py_case (Py.le e 15); [lia|].
  py_case (Py.le e 25).
  { destruct (wind_caution_bracket e) as [? _]; [assumption..|]. lia. }
  py_case (Py.le e 35); [|lia].
  destruct (wind_dangerous_bracket e) as [? _]; [assumption..|]. lia.
Qed.

Lemma wind_subscore_antitone (e1 e2 : Q) :
  e1 <= e2 -> (wind_subscore e2 <= wind_subscore e1)%Z.
Proof.
  intro Hle. unfold wind_subscore.
  py_case (Py.le e1 15).
  { generalize (wind_subscore_range e2). unfold wind_subscore. lia. }
  py_case (Py.le e2 15); [lra|].
  py_case (Py.le e1 25).
  - destruct (wind_caution_bracket e1) as [B1 F1]; [assumption..|].
    py_case (Py.le e2 25).
    + destruct (wind_caution_bracket e2) as [B2 F2]; [assumption..|].
      rewrite F1, F2.
      assert ((Qfloor ((e1 - 15) * 3) <= Qfloor ((e2 - 15) * 3))%Z)
        by (apply Qfloor_resp_le; lra).
      lia.
    + py_case (Py.le e2 35); [|lia].
      destruct (wind_dangerous_bracket e2) as [B2 _]; [assumption..|]. lia.
  - py_case (Py.le e2 25); [lra|].
    py_case (Py.le e1 35).
    + destruct (wind_dangerous_bracket e1) as [B1 F1]; [assumption..|].
      py_case (Py.le e2 35); [|lia].
      destruct (wind_dangerous_bracket e2) as [B2 F2]; [assumption..|].
      rewrite F1, F2.
      assert ((Qfloor ((e1 - 25) * 2) <= Qfloor ((e2 - 25) * 2))%Z)
        by (apply Qfloor_resp_le; lra).
      lia.
    + py_case (Py.le e2 35); [lra|lia].
Qed.

Lemma analyze_wind_range (w : Wind) : (0 <= _analyze_wind A w <= 100)%Z.
Proof. rewrite analyze_wind_subscore. apply wind_subscore_range. Qed.

Lemma analyze_visibility_range (v : Q) :
  (0 <= _analyze_visibility A v <= 100)%Z.
Proof.
  unfold _analyze_visibility.
  repeat match goal with |- context [if ?c then _ else _] => destruct c end;
    lia.
Qed.

Lemma analyze_precipitation_range (p : Precipitation) :
  (0 <= _analyze_precipitation A p <= 100)%Z.
Proof.
  unfold _analyze_precipitation.
  repeat match goal with |- context [if ?c then _ else _] => destruct c end;
    lia.
Qed.

Lemma analyze_clouds_range (c : Q) : (50 <= _analyze_clouds c <= 100)%Z.
Proof.
  unfold _analyze_clouds.
  repeat match goal with |- context [if ?c then _ else _] => destruct c end;
    lia.
Qed.

Lemma analyze_temperature_range (t : Q) :
  0 <= _analyze_temperature A t <= 100.
Proof.
  unfold _analyze_temperature. simpl.
  destruct (Py.le (-10) t && Py.le t 40) eqn:E; [lra|].
  py_case (Py.lt t (-10)).
  - apply max0_range. lra.
  - apply andb_false_iff in E. destruct E as [E|E]; apply le_false in E.
    + lra.
    + apply max0_range. lra.
Qed.

(** [sum(scores)] in terms of the sub-scores. *)
Lemma total_of_reading (r : WeatherData) :
  Py.sum (weighted_scores A r)
  = weighted_total (inject_Z (_analyze_wind A (wind r)))
      (inject_Z (_analyze_visibility A (visibility r)))
      (_analyze_temperature A (current (temperature r)))
      (inject_Z (_analyze_precipitation A (precipitation r)))
      (inject_Z (_analyze_clouds (cloudiness r))).
Proof. unfold weighted_scores, weighted_total. simpl app. reflexivity. Qed.

(** The tier read off the total agrees with the tier read off the
    truncated total. *)
Lemma determine_safety_level_floor (x : Q) :
  _determine_safety_level x = tier_of_aggregate (Qfloor x).
Proof.
  unfold _determine_safety_level, tier_of_aggregate, Py.ge.
  assert (H : forall z : Z, Py.le (inject_Z z) x = (z <=? Qfloor x)%Z).
  { intro z. apply eq_true_iff_eq.
    rewrite le_true, Z.leb_le. apply floor_ge. }
  change 80 with (inject_Z 80). change 60 with (inject_Z 60).
  change 30 with (inject_Z 30).
  rewrite !H. reflexivity.
Qed.

End ScoringFacts.

Lemma effective_wind_max (w : Wind) :
  speed w <= effective_wind w /\ gust w <= effective_wind w
  /\ (effective_wind w = speed w \/ effective_wind w = gust w).
Proof.
  unfold effective_wind, Py.max.
  py_case (Py.gt (gust w) (speed w)); repeat split; auto; lra.
Qed.

(** *** The binary64 total *)

Lemma float_nonneg (c : Q) : 0 <= c -> 0 <= Py.float c.
Proof. apply round64_nonneg. Qed.

Lemma fmul_monotone (a b c : Q) :
  0 <= c -> a <= b -> Py.fmul a (Py.float c) <= Py.fmul b (Py.float c).
Proof.
  intros Hc H. apply round64_monotone.
  apply Qmult_le_compat_r; [exact H|]. apply float_nonneg, Hc.
Qed.

Lemma fadd_monotone (a b c d : Q) :
  a <= b -> c <= d -> Py.fadd a c <= Py.fadd b d.
Proof. intros H1 H2. apply round64_monotone. lra. Qed.

(** The total grows with every sub-score. *)
Lemma weighted_total_monotone (w1 v1 t1 p1 c1 w2 v2 t2 p2 c2 : Q) :
  w1 <= w2 -> v1 <= v2 -> t1 <= t2 -> p1 <= p2 -> c1 <= c2 ->
  weighted_total w1 v1 t1 p1 c1 <= weighted_total w2 v2 t2 p2 c2.
Proof.
  intros W V T P C. unfold weighted_total. rewrite !sum5.
  repeat apply fadd_monotone; try apply Qle_refl;
    apply fmul_monotone; try assumption; discriminate.
Qed.




Lemma total_le (r : WeatherData) (ws vs ts ps cs : Q) :
  inject_Z (_analyze_wind FlightAnalyzer_init (wind r)) <= ws ->
  inject_Z (_analyze_visibility FlightAnalyzer_init (visibility r)) <= vs ->
  _analyze_temperature FlightAnalyzer_init (current (temperature r)) <= ts ->
  inject_Z (_analyze_precipitation FlightAnalyzer_init (precipitation r))
  <= ps ->
  inject_Z (_analyze_clouds (cloudiness r)) <= cs ->
  Py.sum (weighted_scores FlightAnalyzer_init r)
  <= weighted_total ws vs ts ps cs.
Proof.
  intros. rewrite total_of_reading. apply weighted_total_monotone; assumption.
Qed.

Lemma total_ge (r : WeatherData) (ws vs ts ps cs : Q) :
  ws <= inject_Z (_analyze_wind FlightAnalyzer_init (wind r)) ->
  vs <= inject_Z (_analyze_visibility FlightAnalyzer_init (visibility r)) ->
  ts <= _analyze_temperature FlightAnalyzer_init (current (temperature r)) ->
  ps
  <= inject_Z (_analyze_precipitation FlightAnalyzer_init (precipitation r)) ->
  cs <= inject_Z (_analyze_clouds (cloudiness r)) ->
  weighted_total ws vs ts ps cs
  <= Py.sum (weighted_scores FlightAnalyzer_init r).
Proof.
  intros. rewrite total_of_reading. apply weighted_total_monotone; assumption.
Qed.

(** The sub-scores of a reading, as rationals between their bounds. *)
Lemma subscore_ranges (r : WeatherData) :
  (0 <= inject_Z (_analyze_wind FlightAnalyzer_init (wind r)) <= 100)
  /\ (0 <= inject_Z (_analyze_visibility FlightAnalyzer_init (visibility r))
      <= 100)
  /\ (0 <= _analyze_temperature FlightAnalyzer_init (current (temperature r))
      <= 100)
  /\ (0 <= inject_Z (_analyze_precipitation FlightAnalyzer_init
                       (precipitation r)) <= 100)
  /\ (50 <= inject_Z (_analyze_clouds (cloudiness r)) <= 100).
Proof.
  pose proof (analyze_wind_range (wind r)) as [W1 W2].
  pose proof (analyze_visibility_range (visibility r)) as [V1 V2].
  pose proof (analyze_precipitation_range (precipitation r)) as [P1 P2].
  pose proof (analyze_clouds_range (cloudiness r)) as [C1 C2].
  pose proof (analyze_temperature_range (current (temperature r))) as [T1 T2].
  rewrite Zle_Qle in W1, W2, V1, V2, P1, P2, C1, C2.
  repeat split; assumption.
Qed.

Lemma total_range (r : WeatherData) :
  5 <= Py.sum (weighted_scores FlightAnalyzer_init r) <= 100.
Proof.
  destruct (subscore_ranges r)
    as ([W1 W2] & [V1 V2] & [T1 T2] & [P1 P2] & [C1 C2]).
  split.
  - apply Qle_trans with (weighted_total 0 0 0 0 50).
    + vm_compute. discriminate.
    + apply total_ge; assumption.
  - apply Qle_trans with (weighted_total 100 100 100 100 100).
    + apply total_le; assumption.
    + vm_compute. discriminate.
Qed.

Lemma score_of_reading (r : WeatherData) :
  fst (calculate_flight_score FlightAnalyzer_init (Some r))
  = Qfloor (Py.sum (weighted_scores FlightAnalyzer_init r)).
Proof.
  unfold calculate_flight_score, fst.
  pose proof (total_range r) as [L _].
  apply int_floor. lra.
Qed.

Lemma tier_of_reading (r : WeatherData) :
  snd (calculate_flight_score FlightAnalyzer_init (Some r))
  = tier_of_aggregate (fst (calculate_flight_score FlightAnalyzer_init (Some r))).
Proof.
  rewrite score_of_reading. unfold calculate_flight_score, snd.
  apply determine_safety_level_floor.
Qed.

Lemma tier_rank_monotone (a b : Z) :
  (a <= b)%Z ->
  (tier_rank (tier_of_aggregate a) <= tier_rank (tier_of_aggregate b))%Z.
Proof.
  intro H. unfold tier_of_aggregate.
  destruct (80 <=? a)%Z eqn:A1; destruct (80 <=? b)%Z eqn:B1;
    destruct (60 <=? a)%Z eqn:A2; destruct (60 <=? b)%Z eqn:B2;
    destruct (30 <=? a)%Z eqn:A3; destruct (30 <=? b)%Z eqn:B3;
    simpl; lia.
Qed.

Lemma tier_no_fly (a : Z) : tier_of_aggregate a = NO_FLY <-> (a < 30)%Z.
Proof.
  unfold tier_of_aggregate.
  destruct (80 <=? a)%Z eqn:A1; destruct (60 <=? a)%Z eqn:A2;
    destruct (30 <=? a)%Z eqn:A3; split; intro H;
    try discriminate; try reflexivity; lia.
Qed.

Lemma tier_safe (a : Z) : tier_of_aggregate a = SAFE <-> (80 <= a)%Z.
Proof.
  unfold tier_of_aggregate.
  destruct (80 <=? a)%Z eqn:A1; destruct (60 <=? a)%Z eqn:A2;
    destruct (30 <=? a)%Z eqn:A3; split; intro H;
    try discriminate; try reflexivity; lia.
Qed.

Lemma floor_lt (z : Z) (x : Q) : (Qfloor x < z)%Z <-> x < inject_Z z.
Proof.
  split; intro H.
  - apply Qnot_le_lt. intro G. apply floor_ge in G. lia.
  - apply Z.nle_gt. intro G. apply floor_ge in G. lra.
Qed.

(** The score is bounded by the total of any sub-scores that bound the
    sub-scores of the reading. *)
Lemma score_le (r : WeatherData) (ws vs ts ps cs : Q) (z : Z) :
  inject_Z (_analyze_wind FlightAnalyzer_init (wind r)) <= ws ->
  inject_Z (_analyze_visibility FlightAnalyzer_init (visibility r)) <= vs ->
  _analyze_temperature FlightAnalyzer_init (current (temperature r)) <= ts ->
  inject_Z (_analyze_precipitation FlightAnalyzer_init (precipitation r))
  <= ps ->
  inject_Z (_analyze_clouds (cloudiness r)) <= cs ->
  weighted_total ws vs ts ps cs <= inject_Z z ->
  (fst (calculate_flight_score FlightAnalyzer_init (Some r)) <= z)%Z.
Proof.
  intros W V T P C H. rewrite score_of_reading. apply floor_le.
  apply Qle_trans with (weighted_total ws vs ts ps cs); [|exact H].
  apply total_le; assumption.
Qed.

Lemma score_ge (r : WeatherData) (ws vs ts ps cs : Q) (z : Z) :
  ws <= inject_Z (_analyze_wind FlightAnalyzer_init (wind r)) ->
  vs <= inject_Z (_analyze_visibility FlightAnalyzer_init (visibility r)) ->
  ts <= _analyze_temperature FlightAnalyzer_init (current (temperature r)) ->
  ps
  <= inject_Z (_analyze_precipitation FlightAnalyzer_init (precipitation r)) ->
  cs <= inject_Z (_analyze_clouds (cloudiness r)) ->
  inject_Z z <= weighted_total ws vs ts ps cs ->
  (z <= fst (calculate_flight_score FlightAnalyzer_init (Some r)))%Z.
Proof.
  intros W V T P C H. rewrite score_of_reading. apply (floor_ge z).
  apply Qle_trans with (weighted_total ws vs ts ps cs); [exact H|].
  apply total_ge; assumption.
Qed.

Lemma score_lt (r : WeatherData) (ws vs ts ps cs : Q) (z : Z) :
  inject_Z (_analyze_wind FlightAnalyzer_init (wind r)) <= ws ->
  inject_Z (_analyze_visibility FlightAnalyzer_init (visibility r)) <= vs ->
  _analyze_temperature FlightAnalyzer_init (current (temperature r)) <= ts ->
  inject_Z (_analyze_precipitation FlightAnalyzer_init (precipitation r))
  <= ps ->
  inject_Z (_analyze_clouds (cloudiness r)) <= cs ->
  weighted_total ws vs ts ps cs < inject_Z z ->
  (fst (calculate_flight_score FlightAnalyzer_init (Some r)) < z)%Z.
Proof.
  intros W V T P C H. rewrite score_of_reading. apply floor_lt.
  apply Qle_lt_trans with (weighted_total ws vs ts ps cs); [|exact H].
  apply total_le; assumption.
Qed.

(** Readings on both sides of each tier boundary. *)
Example boundary_readings :
  map (calculate_flight_score FlightAnalyzer_init)
      [Some at_80; Some at_79; Some at_60; Some at_59; Some at_30; Some at_29]
  = [(80, SAFE); (79, CAUTION); (60, CAUTION); (59, DANGEROUS);
     (30, DANGEROUS); (29, NO_FLY)]%Z.
Proof. vm_compute. reflexivity. Qed.



(** C2.  For the absent reading, [calculate_flight_score] returns score 0
    and tier NO_FLY, whatever the thresholds, and the call ends by
    returning, not by raising. *)
Theorem C2_absent_reading (self : FlightAnalyzer) :
  calculate_flight_score self None = (0%Z, NO_FLY)
  /\ score self None = Returned (0%Z, NO_FLY).
Proof. split; reflexivity. Qed.

(** C5.  The wind sub-score is non-increasing in the effective wind, the
    maximum of speed and gust: of two readings, the one with the larger
    effective wind has the smaller or equal wind sub-score, whatever their
    other fields. *)
Theorem C5_wind_subscore_monotone (r1 r2 : WeatherData) :
  effective_wind (wind r1) <= effective_wind (wind r2) ->
  (_analyze_wind FlightAnalyzer_init (wind r2)
   <= _analyze_wind FlightAnalyzer_init (wind r1))%Z.
Proof.
  intro H. rewrite !analyze_wind_subscore.
  apply wind_subscore_antitone. exact H.
Qed.

Lemma C5_wind_subscore_monotone_witness :
  effective_wind (wind breeze) <= effective_wind (wind (gale 50 0))
  /\ (_analyze_wind FlightAnalyzer_init (wind (gale 50 0))
      <= _analyze_wind FlightAnalyzer_init (wind breeze))%Z.
Proof.
  split.
  - vm_compute. discriminate.
  - apply (C5_wind_subscore_monotone breeze (gale 50 0)).
    vm_compute. discriminate.
Defined.

(** C10.  The cloudiness sub-score is at least 50, so the aggregate of a
    present reading is at least 5; a score of 0 is returned for the absent
    reading only. *)
Theorem C10_zero_only_when_absent :
  (forall c : Q, (50 <= _analyze_clouds c)%Z)
  /\ (forall r : WeatherData,
        (5 <= fst (calculate_flight_score FlightAnalyzer_init (Some r)))%Z)
  /\ (forall x : option WeatherData,
        fst (calculate_flight_score FlightAnalyzer_init x) = 0%Z <->
        x = None).
Proof.
  assert (F : forall r : WeatherData,
             (5 <= fst (calculate_flight_score FlightAnalyzer_init (Some r)))%Z).
  { intro r. rewrite score_of_reading.
    apply (floor_ge 5). change (inject_Z 5) with 5.
    apply total_range. }
  split; [intro c; apply analyze_clouds_range|].
  split; [exact F|].
  intros [r|]; split; intro H; try reflexivity; try discriminate.
  specialize (F r). rewrite H in F. lia.
Qed.

(* ================================================================== *)
(** * The alert evaluator *)

Lemma bind_cong {A B : Type} (c c' : M A) (k k' : A -> M B) :
  (forall w, c w = c' w) -> (forall a w, k a w = k' a w) ->
  forall w, bind c k w = bind c' k' w.
Proof.
  intros Hc Hk w. unfold bind. rewrite Hc. destruct (c' w). apply Hk.
Qed.

Lemma emit_bind {B : Type} (xs ys : list AlertSpec) (k : list WeatherAlert -> M B) :
  forall alerts w,
    bind (emit alerts xs) (fun a => bind (emit a ys) k) w
    = bind (emit alerts (xs ++ ys)) k w.
Proof.
  induction xs as [|[[l t] m] xs IH]; intros alerts w.
  - reflexivity.
  - change
      ((let (a, w') :=
          (let (a, w') := append_alert alerts l t m w in emit a xs w') in
        bind (emit a ys) k w')
       = (let (a, w') :=
            (let (a, w') := append_alert alerts l t m w in
             emit a (xs ++ ys) w') in
          k a w')).
    destruct (append_alert alerts l t m w) as [a0 w0].
    exact (IH a0 w0).
Qed.

Lemma emit_run (specs : list AlertSpec) :
  forall alerts w,
    emit alerts specs w
    = ((alerts ++ stamp (clock w) (reads w) specs)%list,
       tick (List.length specs) w).
Proof.
  induction specs as [|[[l t] m] specs IH]; intros alerts w.
  - simpl. rewrite app_nil_r. destruct w. reflexivity.
  - simpl. unfold bind, append_alert, WeatherAlert_init, bind,
      datetime_now_isoformat, ret. rewrite IH. simpl.
    rewrite <- app_assoc. simpl. unfold tick. simpl.
    rewrite Nat.add_succ_r. reflexivity.
Qed.

(** Case analysis on every test of the goal; each case holds by
    computation. *)
Ltac rule_cases :=
  repeat match goal with
         | |- context [if ?c then _ else _] => destruct c
         end;
  reflexivity.

(** Each rule of the evaluator appends the alerts of its pure rule. *)

Lemma wind_stage (r : WeatherData) (alerts : list WeatherAlert) (w : World) :
  (if Py.gt (speed (wind r)) 40 then
     append_alert alerts EMERGENCY "Extreme Wind Warning"
       ("Wind speed " ++ Py.format_1f (speed (wind r))
          ++ " km/h exceeds safe limits. DO NOT FLY.")
   else if Py.gt (speed (wind r)) 30 then
     append_alert alerts CRITICAL "High Wind Warning"
       ("Wind speed " ++ Py.format_1f (speed (wind r))
          ++ " km/h. Flight operations not recommended.")
   else if Py.gt (speed (wind r)) 20 then
     append_alert alerts WARNING "Wind Advisory"
       ("Wind speed " ++ Py.format_1f (speed (wind r))
          ++ " km/h. Exercise extreme caution.")
   else ret alerts) w
  = emit alerts (wind_rule r) w.
Proof. unfold wind_rule. rule_cases. Qed.

Lemma visibility_stage (r : WeatherData) (alerts : list WeatherAlert) (w : World) :
  (if Py.lt (visibility r) 1 then
     append_alert alerts CRITICAL "Low Visibility Warning"
       ("Visibility " ++ Py.format_1f (visibility r)
          ++ " km. Visual flight rules not recommended.")
   else if Py.lt (visibility r) 3 then
     append_alert alerts WARNING "Reduced Visibility"
       ("Visibility " ++ Py.format_1f (visibility r)
          ++ " km. Maintain visual observers.")
   else ret alerts) w
  = emit alerts (visibility_rule r) w.
Proof. unfold visibility_rule. rule_cases. Qed.

Lemma temperature_stage (r : WeatherData) (alerts : list WeatherAlert) (w : World) :
  (if Py.lt (current (temperature r)) (-15) then
     append_alert alerts CRITICAL "Extreme Cold Warning"
       ("Temperature " ++ Py.format_1f (current (temperature r))
          ++ "°C. Battery and equipment failure risk.")
   else if Py.gt (current (temperature r)) 45 then
     append_alert alerts CRITICAL "Extreme Heat Warning"
       ("Temperature " ++ Py.format_1f (current (temperature r))
          ++ "°C. Overheating risk for electronics.")
   else ret alerts) w
  = emit alerts (temperature_rule r) w.
Proof. unfold temperature_rule. rule_cases. Qed.

Lemma precipitation_stage (r : WeatherData) (alerts : list WeatherAlert) (w : World) :
  (if orb (Py.gt (rain_1h (precipitation r)) 10)
          (Py.gt (snow_1h (precipitation r)) 10) then
     append_alert alerts CRITICAL "Heavy Precipitation Warning"
       "Heavy rain/snow detected. Equipment damage risk."
   else if orb (Py.gt (rain_1h (precipitation r)) (25 # 10))
               (Py.gt (snow_1h (precipitation r)) (25 # 10)) then
     append_alert alerts WARNING "Precipitation Advisory"
       "Moderate precipitation. Protect equipment from moisture."
   else ret alerts) w
  = emit alerts (precipitation_rule r) w.
Proof. unfold precipitation_rule. rule_cases. Qed.

Lemma pressure_stage (r : WeatherData) (alerts : list WeatherAlert) (w : World) :
  (if Py.lt (Py.value (pressure r)) 980 then
     append_alert alerts WARNING "Low Pressure System"
       ("Low barometric pressure " ++ Py.str (pressure r)
          ++ " hPa. Storm system possible.")
   else if Py.gt (Py.value (pressure r)) 1030 then
     append_alert alerts INFO "High Pressure System"
       ("High barometric pressure " ++ Py.str (pressure r)
          ++ " hPa. Stable conditions expected.")
   else ret alerts) w
  = emit alerts (pressure_rule r) w.
Proof. unfold pressure_rule. rule_cases. Qed.

Lemma category_stage (r : WeatherData) (alerts : list WeatherAlert) (w : World) :
  (if Py.contains "thunderstorm" (Py.lower (main (weather r))) then
     append_alert alerts EMERGENCY "Thunderstorm Warning"
       "Thunderstorm conditions detected. IMMEDIATE LANDING REQUIRED."
   else if Py.contains "tornado" (Py.lower (main (weather r))) then
     append_alert alerts EMERGENCY "Tornado Warning"
       "Tornado activity detected. SEEK IMMEDIATE SHELTER."
   else ret alerts) w
  = emit alerts (category_rule r) w.
Proof. unfold category_rule. rule_cases. Qed.

(** The evaluator appends the alerts of the six rules in order, stores the
    list and returns it. *)
Lemma check_weather_alerts_emit (r : WeatherData) (w : World) :
  check_weather_alerts r w
  = (alerts <- emit [] (alert_rules r) ;;
     _ <- set_active_alerts alerts ;;
     ret alerts) w.
Proof.
  unfold alert_rules, check_weather_alerts.
  rewrite <- emit_bind.
  apply bind_cong; [intro; apply wind_stage|intros a1 w1].
  rewrite <- emit_bind.
  apply bind_cong; [intro; apply visibility_stage|intros a2 w2].
  rewrite <- emit_bind.
  apply bind_cong; [intro; apply temperature_stage|intros a3 w3].
  rewrite <- emit_bind.
  apply bind_cong; [intro; apply precipitation_stage|intros a4 w4].
  rewrite <- emit_bind.
  apply bind_cong; [intro; apply pressure_stage|intros a5 w5].
  apply bind_cong; [intro; apply category_stage|intros a6 w6].
  reflexivity.
Qed.

(** What a call of the evaluator returns and how it leaves the world: the
    alerts of the rules, stamped with successive clock readings, which
    replace the stored list. *)
Lemma check_weather_alerts_run (r : WeatherData) (w : World) :
  check_weather_alerts r w
  = (stamp (clock w) (reads w) (alert_rules r),
     {| clock := clock w;
        reads := List.length (alert_rules r) + reads w;
        active_alerts := stamp (clock w) (reads w) (alert_rules r) |}).
Proof.
  rewrite check_weather_alerts_emit.
  unfold bind at 1. rewrite emit_run. reflexivity.
Qed.

Lemma content_stamp (clk : nat -> string) (specs : list AlertSpec) :
  forall n, map content (stamp clk n specs) = specs.
Proof.
  induction specs as [|[[l t] m] specs IH]; intro n; simpl.
  - reflexivity.
  - rewrite IH. reflexivity.
Qed.

Lemma timestamp_stamp (clk : nat -> string) (specs : list AlertSpec) :
  forall n,
    map timestamp (stamp clk n specs) = map clk (seq n (List.length specs)).
Proof.
  induction specs as [|[[l t] m] specs IH]; intro n; simpl.
  - reflexivity.
  - rewrite IH. reflexivity.
Qed.

Lemma length_stamp (clk : nat -> string) (specs : list AlertSpec) :
  forall n, List.length (stamp clk n specs) = List.length specs.
Proof.
  induction specs as [|[[l t] m] specs IH]; intro n; simpl.
  - reflexivity.
  - rewrite IH. reflexivity.
Qed.

Lemma stamp_app (clk : nat -> string) (xs ys : list AlertSpec) :
  forall n,
    stamp clk n (xs ++ ys)
    = (stamp clk n xs ++ stamp clk (List.length xs + n) ys)%list.
Proof.
  induction xs as [|[[l t] m] xs IH]; intro n; simpl.
  - reflexivity.
  - rewrite IH, Nat.add_succ_r. reflexivity.
Qed.

Lemma wind_rule_filter (clk : nat -> string) (n : nat) (r : WeatherData) :
  filter is_wind_alert (stamp clk n (wind_rule r)) = stamp clk n (wind_rule r).
Proof. unfold wind_rule. rule_cases. Qed.

Lemma visibility_rule_filter (clk : nat -> string) (n : nat) (r : WeatherData) :
  filter is_wind_alert (stamp clk n (visibility_rule r)) = [].
Proof. unfold visibility_rule. rule_cases. Qed.

Lemma temperature_rule_filter (clk : nat -> string) (n : nat) (r : WeatherData) :
  filter is_wind_alert (stamp clk n (temperature_rule r)) = [].
Proof. unfold temperature_rule. rule_cases. Qed.

Lemma precipitation_rule_filter (clk : nat -> string) (n : nat) (r : WeatherData) :
  filter is_wind_alert (stamp clk n (precipitation_rule r)) = [].
Proof. unfold precipitation_rule. rule_cases. Qed.

Lemma pressure_rule_filter (clk : nat -> string) (n : nat) (r : WeatherData) :
  filter is_wind_alert (stamp clk n (pressure_rule r)) = [].
Proof. unfold pressure_rule. rule_cases. Qed.

Lemma category_rule_filter (clk : nat -> string) (n : nat) (r : WeatherData) :
  filter is_wind_alert (stamp clk n (category_rule r)) = [].
Proof. unfold category_rule. rule_cases. Qed.

(** The wind alerts among the alerts of a reading are those of the wind
    rule. *)
Lemma wind_alerts_of_rules (clk : nat -> string) (n : nat) (r : WeatherData) :
  filter is_wind_alert (stamp clk n (alert_rules r))
  = stamp clk n (wind_rule r).
Proof.
  unfold alert_rules.
  rewrite !stamp_app, !filter_app.
  rewrite wind_rule_filter, visibility_rule_filter, temperature_rule_filter,
    precipitation_rule_filter, pressure_rule_filter, category_rule_filter.
  apply app_nil_r.
Qed.

Lemma alert_rules_with_gust (r : WeatherData) (g : Q) :
  alert_rules (with_gust r g) = alert_rules r.
Proof. reflexivity. Qed.

(** The gust decides the wind sub-score of a reading whose wind raises no
    alert. *)
Example gust_scored_not_alerted (w : World) :
  let r := mk_reading 10 50 15 22 0 0 10 (Py.Int 1015) "Clear" in
  _analyze_wind FlightAnalyzer_init (wind r) = 0%Z
  /\ _analyze_wind FlightAnalyzer_init (wind (with_gust r 0)) = 100%Z
  /\ fst (check_weather_alerts r w) = [].
Proof.
  repeat split; reflexivity.
Qed.

(** C4.  The clear-day reading (wind 10, gust 0, visibility 15,
    temperature 22, no rain, no snow, cloudiness 10, pressure 1015,
    "Clear"): every sub-score is 100, the aggregate is 100 and the tier
    SAFE, the evaluator returns no alert, and the recommendations are the
    one favourable line. *)
Theorem C4_clear_day (w : World) :
  clear_day = mk_reading 10 0 15 22 0 0 10 (Py.Int 1015) "Clear"
  /\ _analyze_wind FlightAnalyzer_init (wind clear_day) = 100%Z
  /\ _analyze_visibility FlightAnalyzer_init (visibility clear_day) = 100%Z
  /\ _analyze_temperature FlightAnalyzer_init
       (current (temperature clear_day)) = 100
  /\ _analyze_precipitation FlightAnalyzer_init (precipitation clear_day)
     = 100%Z
  /\ _analyze_clouds (cloudiness clear_day) = 100%Z
  /\ calculate_flight_score FlightAnalyzer_init (Some clear_day)
     = (100%Z, SAFE)
  /\ fst (check_weather_alerts clear_day w) = []
  /\ generate_flight_recommendations FlightAnalyzer_init clear_day 100 SAFE
     = ["✅ Conditions are favorable for flight operations."].
Proof.
  repeat split; reflexivity.
Qed.

(** C6.  The wind rule of the evaluator reads the wind speed only: the
    gust does not change what the evaluator returns.  Only the highest
    bracket the speed exceeds fires.  For the reading with wind 45,
    visibility 12, temperature 20, no rain, no snow, pressure 1013 and
    "Clear", with any gust, the evaluator returns exactly one alert, the
    EMERGENCY "Extreme Wind Warning". *)
Theorem C6_wind_alert_on_speed_only (r : WeatherData) (g c : Q) (w : World) :
  check_weather_alerts (with_gust r g) w = check_weather_alerts r w
  /\ map (fun a => (level a, title a))
         (filter is_wind_alert (fst (check_weather_alerts r w)))
     = (if Py.gt (speed (wind r)) 40 then
          [(EMERGENCY, "Extreme Wind Warning")]
        else if Py.gt (speed (wind r)) 30 then
          [(CRITICAL, "High Wind Warning")]
        else if Py.gt (speed (wind r)) 20 then
          [(WARNING, "Wind Advisory")]
        else [])
  /\ gale g c = mk_reading 45 g 12 20 0 0 c (Py.Int 1013) "Clear"
  /\ fst (check_weather_alerts (gale g c) w)
     = [ {| level := EMERGENCY;
            title := "Extreme Wind Warning";
            message := "Wind speed 45.0 km/h exceeds safe limits. DO NOT FLY.";
            timestamp := clock w (reads w) |} ].
Proof.
  split; [|split; [|split]].
  - rewrite !check_weather_alerts_run, alert_rules_with_gust. reflexivity.
  - rewrite check_weather_alerts_run. unfold fst.
    rewrite wind_alerts_of_rules. unfold wind_rule. rule_cases.
  - reflexivity.
  - rewrite check_weather_alerts_run. reflexivity.
Qed.

(** C8, as stated, fails: two successive evaluations of the same reading
    return alerts that differ in their timestamp when the clock has moved
    between the two constructor calls. *)
Lemma C8_counterexample :
  let first := check_weather_alerts (gale 0 0) world0 in
  let second := check_weather_alerts (gale 0 0) (snd first) in
  fst first <> fst second
  /\ map timestamp (fst first) = ["2026-01-01T12:00:00.000000"]
  /\ map timestamp (fst second) = ["2026-01-01T12:00:00.000001"].
Proof.
  vm_compute. repeat split. intro H. discriminate H.
Qed.

(** C8, amended.  [calculate_flight_score] and
    [generate_flight_recommendations] are functions of their arguments
    alone.  Two successive calls of [check_weather_alerts] on the same
    reading return alerts with the same level, title and message in the
    same order, in whatever state the calls are made; the timestamp of each
    alert is the clock reading taken when the alert is constructed, so the
    timestamps of the second call continue the clock where the first call
    left it.  Each call replaces the stored list by the list it returns. *)
Theorem C8_repeatable_up_to_timestamps (r : WeatherData) (w : World) :
  let first := check_weather_alerts r w in
  let second := check_weather_alerts r (snd first) in
  map content (fst first) = map content (fst second)
  /\ (forall w' : World,
        map content (fst (check_weather_alerts r w'))
        = map content (fst first))
  /\ map timestamp (fst first)
     = map (clock w) (seq (reads w) (List.length (fst first)))
  /\ map timestamp (fst second)
     = map (clock w)
         (seq (List.length (fst first) + reads w) (List.length (fst second)))
  /\ active_alerts (snd first) = fst first
  /\ active_alerts (snd second) = fst second.
Proof.
  intros first second. subst second first.
  rewrite !check_weather_alerts_run. unfold fst, snd, clock, reads.
  rewrite !content_stamp, !timestamp_stamp, !length_stamp.
  repeat split.
  intro w'. rewrite check_weather_alerts_run. apply content_stamp.
Qed.

(** An int within the range of the floats has far fewer than 4300
    digits. *)
Lemma finite_str_accepted (n : Py.num) :
  finite (Py.value n) = true -> str_refused n = false.
Proof.
  destruct n as [z|q]; [|reflexivity]. unfold finite, str_refused, Py.value.
  intro H. apply lt_true in H.
  assert (A : Qabs (inject_Z z) = inject_Z (Z.abs z)) by reflexivity.
  rewrite A, <- Zlt_Qlt in H.
  apply Z.leb_gt. apply Z.lt_trans with (2 ^ 1024 - 2 ^ 970)%Z; [exact H|].
  vm_compute. reflexivity.
Qed.

(** C3, as stated, fails: a reading whose visibility is negative is out of
    the domain of the data model, yet scoring and alert evaluation return
    a result and raise nothing. *)
Lemma C3_counterexample :
  in_domain negative_visibility = false
  /\ score FlightAnalyzer_init (Some negative_visibility)
     = Returned (75%Z, CAUTION)
  /\ score FlightAnalyzer_init (Some negative_visibility)
     <> Raised InvalidInputError
  /\ evaluate negative_visibility world0
     <> Raised InvalidInputError.
Proof.
  assert (E : evaluate negative_visibility world0
              = Returned (check_weather_alerts negative_visibility world0))
    by (vm_compute; reflexivity).
  rewrite E. repeat split; discriminate.
Qed.

(** C3, amended.  A reading with an out-of-domain field is scored and
    evaluated like any other.  For a reading of finite numbers whose
    visibility is negative, the visibility is treated as any visibility
    below 1 km: its sub-score is 0, the aggregate lies between 5 and 75,
    the tier is not SAFE, and the evaluator returns, with the CRITICAL
    "Low Visibility Warning" among its alerts. *)
Theorem C3_out_of_domain_is_scored (r : WeatherData) (w : World) :
  finite_reading r = true ->
  visibility r < 0 ->
  in_domain r = false
  /\ _analyze_visibility FlightAnalyzer_init (visibility r) = 0%Z
  /\ (5 <= fst (calculate_flight_score FlightAnalyzer_init (Some r)) <= 75)%Z
  /\ snd (calculate_flight_score FlightAnalyzer_init (Some r)) <> SAFE
  /\ exists alerts w',
       evaluate r w = Returned (alerts, w')
       /\ In (CRITICAL, "Low Visibility Warning")
             (map (fun a => (level a, title a)) alerts).
Proof.
  intros F H.
  assert (V : _analyze_visibility FlightAnalyzer_init (visibility r) = 0%Z).
  { unfold _analyze_visibility. simpl.
    py_case (Py.ge (visibility r) 10); [lra|].
    py_case (Py.ge (visibility r) 5); [lra|].
    py_case (Py.ge (visibility r) 1); [lra|]. reflexivity. }
  destruct (subscore_ranges r) as ([W1 W2] & _ & [T1 T2] & [P1 P2] & [C1 C2]).
  assert (S : (fst (calculate_flight_score FlightAnalyzer_init (Some r))
               <= 75)%Z).
  { apply (score_le r 100 0 100 100 100); try assumption.
    - rewrite V. apply Qle_refl.
    - vm_compute. discriminate. }
  split; [|split; [exact V|split; [|split]]].
  - unfold in_domain.
    assert (E : Py.le 0 (visibility r) = false) by (apply le_false; exact H).
    rewrite E. reflexivity.
  - split; [|exact S]. rewrite score_of_reading.
    apply (floor_ge 5). change (inject_Z 5) with 5. apply total_range.
  - rewrite tier_of_reading, tier_safe. lia.
  - exists (fst (check_weather_alerts r w)), (snd (check_weather_alerts r w)).
    split.
    + unfold finite_reading in F.
      repeat (apply andb_true_iff in F; destruct F as [F ?]).
      unfold evaluate.
      repeat match goal with
             | E : finite _ = true |- _ => rewrite E; clear E
             end.
      cbn [negb]. rewrite !andb_false_r. cbn [orb].
      rewrite (finite_str_accepted (pressure r)), andb_false_r
        by assumption.
      destruct (check_weather_alerts r w). reflexivity.
    + rewrite check_weather_alerts_run. unfold fst, alert_rules.
      rewrite !stamp_app, !map_app.
      apply in_or_app. right. apply in_or_app. left.
      unfold visibility_rule.
      assert (E : Py.lt (visibility r) 1 = true) by (apply lt_true; lra).
      rewrite E. left. reflexivity.
Qed.

Lemma C3_out_of_domain_is_scored_witness :
  finite_reading negative_visibility = true
  /\ visibility negative_visibility < 0
  /\ (5 <= fst (calculate_flight_score FlightAnalyzer_init
                  (Some negative_visibility)) <= 75)%Z.
Proof.
  assert (F : finite_reading negative_visibility = true)
    by (vm_compute; reflexivity).
  assert (H : visibility negative_visibility < 0) by (vm_compute; reflexivity).
  split; [exact F|]. split; [exact H|].
  exact (proj1 (proj2 (proj2
           (C3_out_of_domain_is_scored negative_visibility world0 F H)))).
Defined.

(* ================================================================== *)
(** * The recommendation generator *)

Lemma advisory_lines_parts (self : FlightAnalyzer) (r : WeatherData) :
  advisory_lines self r = (wind_lines self r ++ other_lines self r)%list.
Proof. unfold advisory_lines, wind_lines, other_lines. rule_cases. Qed.

Lemma recommendations_closing (self : FlightAnalyzer) (r : WeatherData)
  (sc : Z) (tier : FlightSafety) :
  generate_flight_recommendations self r sc tier
  = (advisory_lines self r ++ [closing_line tier])%list.
Proof. destruct tier; reflexivity. Qed.

Lemma wind_lines_not_closing (self : FlightAnalyzer) (r : WeatherData) :
  filter is_closing_line (wind_lines self r) = [].
Proof. unfold wind_lines. rule_cases. Qed.

Lemma other_lines_not_closing (self : FlightAnalyzer) (r : WeatherData) :
  filter is_closing_line (other_lines self r) = [].
Proof. unfold other_lines. rule_cases. Qed.

Lemma wind_lines_are_wind (self : FlightAnalyzer) (r : WeatherData) :
  filter is_wind_line (wind_lines self r) = wind_lines self r.
Proof. unfold wind_lines. rule_cases. Qed.

Lemma other_lines_not_wind (self : FlightAnalyzer) (r : WeatherData) :
  filter is_wind_line (other_lines self r) = [].
Proof. unfold other_lines. rule_cases. Qed.

Lemma wind_lines_out (self : FlightAnalyzer) (r : WeatherData) :
  filter (fun s => negb (is_wind_line s)) (wind_lines self r) = [].
Proof. unfold wind_lines. rule_cases. Qed.

Lemma other_lines_kept (self : FlightAnalyzer) (r : WeatherData) :
  filter (fun s => negb (is_wind_line s)) (other_lines self r)
  = other_lines self r.
Proof. unfold other_lines. rule_cases. Qed.

Lemma closing_line_closing (tier : FlightSafety) :
  is_closing_line (closing_line tier) = true
  /\ is_wind_line (closing_line tier) = false.
Proof. destruct tier; split; reflexivity. Qed.

Lemma filter_none_forallb {A : Type} (f : A -> bool) (l : list A) :
  filter f l = [] -> forallb (fun x => negb (f x)) l = true.
Proof.
  induction l as [|a l IH]; simpl; [reflexivity|].
  destruct (f a); [discriminate|]. exact IH.
Qed.

(** C7.  For every reading, score and tier, the recommendations are not
    empty; their last element is the closing line of the tier, one of four
    fixed, pairwise different strings; and it is the only closing line of
    the list: the lines before it are advisories, none of which is a
    closing line. *)
Theorem C7_one_closing_line (self : FlightAnalyzer) (r : WeatherData)
  (sc : Z) (tier : FlightSafety) :
  let recs := generate_flight_recommendations self r sc tier in
  recs <> []
  /\ last recs "" = closing_line tier
  /\ recs = (advisory_lines self r ++ [closing_line tier])%list
  /\ forallb (fun s => negb (is_closing_line s)) (advisory_lines self r) = true
  /\ filter is_closing_line recs = [closing_line tier]
  /\ map closing_line [SAFE; CAUTION; DANGEROUS; NO_FLY]
     = ["✅ Conditions are favorable for flight operations.";
        "⚠️ Proceed with caution. Monitor conditions closely.";
        "❌ Flight not recommended. Wait for better conditions.";
        "🚫 DO NOT FLY. Conditions are unsafe for operations."]
  /\ NoDup (map closing_line [SAFE; CAUTION; DANGEROUS; NO_FLY]).
Proof.
  intro recs. subst recs. rewrite recommendations_closing.
  assert (N : filter is_closing_line (advisory_lines self r) = []).
  { rewrite advisory_lines_parts, filter_app,
      wind_lines_not_closing, other_lines_not_closing. reflexivity. }
  split; [|split; [|split; [|split; [|split; [|split]]]]].
  - intro H. apply app_eq_nil in H. destruct H as [_ H]. discriminate H.
  - apply last_last.
  - reflexivity.
  - apply filter_none_forallb. exact N.
  - rewrite filter_app, N. simpl.
    destruct (closing_line_closing tier) as [E _]. rewrite E. reflexivity.
  - reflexivity.
  - repeat constructor; simpl; intuition discriminate.
Qed.

(** C9, as stated, fails: at wind speed 20, which is not above the caution
    threshold 25, the generator still emits a wind line. *)
Lemma C9_counterexample :
  Py.gt (speed (wind breeze)) (wind_caution (wind_limits FlightAnalyzer_init))
  = false
  /\ generate_flight_recommendations FlightAnalyzer_init breeze 86 SAFE
     = ["🌪️ Moderate winds (20.0 km/h). Experienced pilots only.";
        "✅ Conditions are favorable for flight operations."]
  /\ existsb is_wind_line
       (generate_flight_recommendations FlightAnalyzer_init breeze 86 SAFE)
     = true.
Proof. repeat split. Qed.

(** C9, amended.  The generator emits one wind line exactly when the wind
    speed is above the safe threshold (default 15 km/h): the high-wind
    line when the speed is above the caution threshold (default 25 km/h),
    the moderate-wind line when it is above the safe threshold and not
    above the caution threshold, and no wind line otherwise.  The lines
    that are not wind lines are, in order: the low-visibility line when
    visibility is below the caution threshold, the cold or hot line when
    the temperature is below or above the safe range, the rain line when
    rain is above 0, the snow line when snow is above 0, and the closing
    line. *)
Theorem C9_wind_line_above_safe_threshold (self : FlightAnalyzer)
  (r : WeatherData) (sc : Z) (tier : FlightSafety) :
  let recs := generate_flight_recommendations self r sc tier in
  filter is_wind_line recs
  = (if Py.gt (speed (wind r)) (wind_caution (wind_limits self)) then
       [high_wind_line (speed (wind r))]
     else if Py.gt (speed (wind r)) (wind_safe (wind_limits self)) then
       [moderate_wind_line (speed (wind r))]
     else [])
  /\ existsb is_wind_line recs
     = Py.gt (speed (wind r)) (wind_caution (wind_limits self))
       || Py.gt (speed (wind r)) (wind_safe (wind_limits self))
  /\ filter (fun s => negb (is_wind_line s)) recs
     = ((if Py.lt (visibility r) (vis_caution (visibility_limits self))
         then [low_visibility_line (visibility r)] else [])
        ++ (if Py.lt (current (temperature r)) (min_safe (temp_limits self))
            then [cold_line (current (temperature r))]
            else if Py.gt (current (temperature r))
                      (max_safe (temp_limits self))
            then [hot_line (current (temperature r))] else [])
        ++ (if Py.gt (rain_1h (precipitation r)) 0
            then [rain_line (rain_1h (precipitation r))] else [])
        ++ (if Py.gt (snow_1h (precipitation r)) 0
            then [snow_line (snow_1h (precipitation r))] else [])
        ++ [closing_line tier])%list
  /\ wind_safe (wind_limits FlightAnalyzer_init) = 15
  /\ wind_caution (wind_limits FlightAnalyzer_init) = 25.
Proof.
  intro recs. subst recs.
  rewrite recommendations_closing, advisory_lines_parts.
  destruct (closing_line_closing tier) as [_ W].
  split; [|split; [|split; [|split]]].
  - rewrite !filter_app, wind_lines_are_wind, other_lines_not_wind.
    simpl. rewrite W. simpl. rewrite ?app_nil_r. reflexivity.
  - rewrite !existsb_app. simpl. rewrite W.
    assert (O : existsb is_wind_line (other_lines self r) = false).
    { unfold other_lines. rule_cases. }
    rewrite O, !orb_false_r. unfold wind_lines. rule_cases.
  - rewrite !filter_app, wind_lines_out, other_lines_kept.
    simpl. rewrite W. simpl. unfold other_lines.
    rewrite <- !app_assoc. reflexivity.
  - reflexivity.
  - reflexivity.
Qed.

(* ================================================================== *)
(** * Further properties of the scoring engine *)

Section MoreScoring.

Let A := FlightAnalyzer_init.

(** Visibility sub-score as a step function of the visibility. *)
Lemma analyze_visibility_cases (v : Q) :
  (10 <= v /\ _analyze_visibility A v = 100%Z)
  \/ (5 <= v < 10 /\ _analyze_visibility A v = 70%Z)
  \/ (1 <= v < 5 /\ _analyze_visibility A v = 30%Z)
  \/ (v < 1 /\ _analyze_visibility A v = 0%Z).
Proof.
  unfold _analyze_visibility. simpl.
  py_case (Py.ge v 10); [left; split; [lra|reflexivity]|].
  py_case (Py.ge v 5); [right; left; split; [lra|reflexivity]|].
  py_case (Py.ge v 1); [right; right; left; split; [lra|reflexivity]|].
  right; right; right. split; [lra|reflexivity].
Qed.

(** Precipitation sub-score as a step function of the binary64 sum of
    rain and snow. *)
Lemma analyze_precipitation_cases (p : Precipitation) :
  let t := Py.round64 (total_precip p) in
  (t == 0 /\ _analyze_precipitation A p = 100%Z)
  \/ (~ t == 0 /\ t <= 25 # 10 /\ _analyze_precipitation A p = 80%Z)
  \/ (25 # 10 < t <= 76 # 10 /\ _analyze_precipitation A p = 50%Z)
  \/ (76 # 10 < t <= 50 /\ _analyze_precipitation A p = 20%Z)
  \/ (50 < t /\ _analyze_precipitation A p = 0%Z).
Proof.
  unfold _analyze_precipitation, Py.fadd.
  change (rain_1h p + snow_1h p) with (total_precip p).
  generalize (Py.round64 (total_precip p)). intro t. simpl.
  destruct (Py.eq t 0) eqn:E0.
  { apply eq_true in E0. left. split; [exact E0|reflexivity]. }
  assert (N : ~ t == 0).
  { intro H. apply eq_true in H. congruence. }
  py_case (Py.le t (25 # 10)).
  { right; left. repeat split; assumption. }
  py_case (Py.le t (76 # 10)).
  { right; right; left. repeat split; assumption. }
  py_case (Py.le t 50).
  { right; right; right; left. repeat split; assumption. }
  right; right; right; right. split; [assumption|reflexivity].
Qed.

(** The sign of the binary64 sum is the sign of the exact sum. *)
Lemma rounded_total_sign (p : Precipitation) :
  (0 <= total_precip p -> 0 <= Py.round64 (total_precip p))
  /\ (total_precip p < 0 -> Py.round64 (total_precip p) < 0)
  /\ (total_precip p == 0 <-> Py.round64 (total_precip p) == 0).
Proof.
  destruct (round64_sign (total_precip p)) as [[H G]|[[H G]|[H G]]].
  - repeat split; intros; lra.
  - rewrite G. repeat split; intros; lra.
  - repeat split; intros; lra.
Qed.

Lemma analyze_clouds_cases (c : Q) :
  (c <= 25 /\ _analyze_clouds c = 100%Z)
  \/ (25 < c <= 50 /\ _analyze_clouds c = 85%Z)
  \/ (50 < c <= 75 /\ _analyze_clouds c = 70%Z)
  \/ (75 < c /\ _analyze_clouds c = 50%Z).
Proof.
  unfold _analyze_clouds.
  py_case (Py.le c 25); [left; split; [lra|reflexivity]|].
  py_case (Py.le c 50); [right; left; split; [lra|reflexivity]|].
  py_case (Py.le c 75); [right; right; left; split; [lra|reflexivity]|].
  right; right; right. split; [lra|reflexivity].
Qed.

Lemma analyze_temperature_cases (t : Q) :
  (-10 <= t <= 40 /\ _analyze_temperature A t = 100)
  \/ (-30 < t < -10 /\ _analyze_temperature A t = 100 - (-10 - t) * 5)
  \/ (t <= -30 /\ _analyze_temperature A t = 0)
  \/ (40 < t /\ t * 3 < 220 /\ _analyze_temperature A t = 100 - (t - 40) * 3)
  \/ (220 <= t * 3 /\ _analyze_temperature A t = 0).
Proof.
  unfold _analyze_temperature. simpl.
  destruct (Py.le (-10) t && Py.le t 40) eqn:E.
  { apply andb_true_iff in E. destruct E as [E1 E2].
    apply le_true in E1, E2. left. split; [split; assumption|reflexivity]. }
  py_case (Py.lt t (-10)).
  - unfold Py.max. py_case (Py.gt (100 - (-10 - t) * 5) 0).
    + right; left. split; [lra|reflexivity].
    + right; right; left. split; [lra|reflexivity].
  - apply andb_false_iff in E. destruct E as [E|E]; apply le_false in E;
      [lra|].
    unfold Py.max. py_case (Py.gt (100 - (t - 40) * 3) 0).
    + right; right; right; left. repeat split; try lra.
    + right; right; right; right. split; [lra|reflexivity].
Qed.

End MoreScoring.

Ltac vis_cases v E :=
  destruct (analyze_visibility_cases v) as [[? E]|[[? E]|[[? E]|[? E]]]].

Ltac precip_cases p E :=
  destruct (analyze_precipitation_cases p)
    as [[? E]|[[? [? E]]|[[? E]|[[? E]|[? E]]]]];
  cbv zeta in *.

Ltac cloud_cases c E :=
  destruct (analyze_clouds_cases c) as [[? E]|[[? E]|[[? E]|[? E]]]].

Ltac temp_cases t E :=
  destruct (analyze_temperature_cases t)
    as [[? E]|[[? E]|[[? E]|[[? [? E]]|[? E]]]]].

(** X1.  The visibility sub-score never decreases when the visibility grows. *)
Theorem visibility_subscore_monotone (v1 v2 : Q) :
  v1 <= v2 ->
  (_analyze_visibility FlightAnalyzer_init v1
   <= _analyze_visibility FlightAnalyzer_init v2)%Z.
Proof.
  intro H. vis_cases v1 E1; vis_cases v2 E2; rewrite E1, E2;
    first [lia | exfalso; lra].
Qed.

Lemma visibility_subscore_monotone_witness :
  3 <= 7
  /\ (_analyze_visibility FlightAnalyzer_init 3
      <= _analyze_visibility FlightAnalyzer_init 7)%Z.
Proof.
  assert (H : 3 <= 7) by (vm_compute; discriminate).
  split; [exact H|]. exact (visibility_subscore_monotone 3 7 H).
Defined.

(** X2.  On non-negative totals the precipitation sub-score never increases
    when rain plus snow grows. *)
Theorem precipitation_subscore_antitone (p1 p2 : Precipitation) :
  0 <= total_precip p1 ->
  total_precip p1 <= total_precip p2 ->
  (_analyze_precipitation FlightAnalyzer_init p2
   <= _analyze_precipitation FlightAnalyzer_init p1)%Z.
Proof.
  intros H0 H.
  assert (R0 : 0 <= Py.round64 (total_precip p1))
    by (apply round64_nonneg, H0).
  assert (R : Py.round64 (total_precip p1) <= Py.round64 (total_precip p2))
    by (apply round64_monotone, H).
  precip_cases p1 E1; precip_cases p2 E2; rewrite E1, E2;
    first [lia | exfalso; lra].
Qed.

Lemma precipitation_subscore_antitone_witness :
  0 <= total_precip {| rain_1h := 1; snow_1h := 1 |}
  /\ total_precip {| rain_1h := 1; snow_1h := 1 |}
     <= total_precip {| rain_1h := 5; snow_1h := 4 |}
  /\ (_analyze_precipitation FlightAnalyzer_init {| rain_1h := 5; snow_1h := 4 |}
      <= _analyze_precipitation FlightAnalyzer_init
           {| rain_1h := 1; snow_1h := 1 |})%Z.
Proof.
  assert (H0 : 0 <= total_precip {| rain_1h := 1; snow_1h := 1 |})
    by (vm_compute; discriminate).
  assert (H : total_precip {| rain_1h := 1; snow_1h := 1 |}
              <= total_precip {| rain_1h := 5; snow_1h := 4 |})
    by (vm_compute; discriminate).
  split; [exact H0|]. split; [exact H|].
  exact (precipitation_subscore_antitone _ _ H0 H).
Defined.

(** X3.  A total below zero is scored as light precipitation, below the score
    of no precipitation at all. *)
Theorem precipitation_negative_total (p : Precipitation) :
  total_precip p < 0 ->
  _analyze_precipitation FlightAnalyzer_init p = 80%Z.
Proof.
  intro H. destruct (rounded_total_sign p) as (_ & N & _).
  specialize (N H).
  precip_cases p E; first [exact E | exfalso; lra].
Qed.

Lemma precipitation_negative_total_witness :
  total_precip {| rain_1h := -1; snow_1h := 0 |} < 0
  /\ _analyze_precipitation FlightAnalyzer_init
       {| rain_1h := -1; snow_1h := 0 |} = 80%Z.
Proof.
  assert (H : total_precip {| rain_1h := -1; snow_1h := 0 |} < 0)
    by (vm_compute; reflexivity).
  split; [exact H|]. exact (precipitation_negative_total _ H).
Defined.

(** X4.  The temperature sub-score is 100 exactly on the safe range
    [-10, 40], and 0 exactly at or below -30 and at or above 73 1/3. *)
Theorem temperature_subscore_extremes (t : Q) :
  (_analyze_temperature FlightAnalyzer_init t == 100 <-> -10 <= t <= 40)
  /\ (_analyze_temperature FlightAnalyzer_init t == 0
      <-> t <= -30 \/ 220 # 3 <= t).
Proof.
  temp_cases t E; rewrite E; split; split; intro G;
    repeat match goal with
           | H : _ /\ _ |- _ => destruct H
           | H : _ \/ _ |- _ => destruct H
           end;
    first [lra | split; lra | left; lra | right; lra | exfalso; lra].
Qed.

(** X5.  Moving the temperature away from the safe range never raises the
    temperature sub-score. *)
Theorem temperature_subscore_unimodal (t1 t2 : Q) :
  (t2 <= t1 /\ t1 <= 40) \/ (-10 <= t1 /\ t1 <= t2) ->
  _analyze_temperature FlightAnalyzer_init t2
  <= _analyze_temperature FlightAnalyzer_init t1.
Proof.
  intro H. temp_cases t1 E1; temp_cases t2 E2; rewrite E1, E2;
    destruct H as [[? ?]|[? ?]]; lra.
Qed.

Lemma temperature_subscore_unimodal_witness :
  ((-20 <= -12 /\ -12 <= 40) \/ (-10 <= -12 /\ -12 <= -20))
  /\ _analyze_temperature FlightAnalyzer_init (-20)
     <= _analyze_temperature FlightAnalyzer_init (-12).
Proof.
  assert (H : (-20 <= -12 /\ -12 <= 40) \/ (-10 <= -12 /\ -12 <= -20))
    by (left; split; vm_compute; discriminate).
  split; [exact H|]. exact (temperature_subscore_unimodal (-12) (-20) H).
Defined.

(** X6.  The cloud sub-score never increases when the cloudiness grows. *)
Theorem clouds_subscore_antitone (c1 c2 : Q) :
  c1 <= c2 -> (_analyze_clouds c2 <= _analyze_clouds c1)%Z.
Proof.
  intro H. cloud_cases c1 E1; cloud_cases c2 E2; rewrite E1, E2;
    first [lia | exfalso; lra].
Qed.

Lemma clouds_subscore_antitone_witness :
  30 <= 80 /\ (_analyze_clouds 80 <= _analyze_clouds 30)%Z.
Proof.
  assert (H : 30 <= 80) by (vm_compute; discriminate).
  split; [exact H|]. exact (clouds_subscore_antitone 30 80 H).
Defined.

(* ------------------------------------------------------------------ *)
(** ** The aggregate *)

(** The wind sub-score is 100 up to 15 km/h, at most 70 above, and at most
    30 above 30 km/h. *)
Lemma wind_subscore_cases (e : Q) :
  (e <= 15 /\ wind_subscore e = 100%Z)
  \/ (15 < e /\ (wind_subscore e <= 70)%Z).
Proof.
  destruct (Qlt_le_dec 15 e) as [H|H].
  - right. split; [exact H|].
    unfold wind_subscore.
    py_case (Py.le e 15); [lra|].
    py_case (Py.le e 25).
    { destruct (wind_caution_bracket e) as [B _]; [assumption..|]. lia. }
    py_case (Py.le e 35); [|lia].
    destruct (wind_dangerous_bracket e) as [B _]; [assumption..|]. lia.
  - left. split; [exact H|]. unfold wind_subscore.
    py_case (Py.le e 15); [reflexivity|lra].
Qed.

Lemma wind_subscore_above_30 (e : Q) : 30 < e -> (wind_subscore e <= 30)%Z.
Proof.
  intro H. apply Z.le_trans with (wind_subscore 30).
  - apply wind_subscore_antitone. lra.
  - vm_compute. discriminate.
Qed.

(** The total grows with every sub-score. *)
Lemma total_monotone (r1 r2 : WeatherData) :
  (_analyze_wind FlightAnalyzer_init (wind r2)
   <= _analyze_wind FlightAnalyzer_init (wind r1))%Z ->
  (_analyze_visibility FlightAnalyzer_init (visibility r2)
   <= _analyze_visibility FlightAnalyzer_init (visibility r1))%Z ->
  _analyze_temperature FlightAnalyzer_init (current (temperature r2))
  <= _analyze_temperature FlightAnalyzer_init (current (temperature r1)) ->
  (_analyze_precipitation FlightAnalyzer_init (precipitation r2)
   <= _analyze_precipitation FlightAnalyzer_init (precipitation r1))%Z ->
  (_analyze_clouds (cloudiness r2) <= _analyze_clouds (cloudiness r1))%Z ->
  Py.sum (weighted_scores FlightAnalyzer_init r2)
  <= Py.sum (weighted_scores FlightAnalyzer_init r1).
Proof.
  intros W V T P C. rewrite !total_of_reading.
  rewrite Zle_Qle in W, V, P, C.
  apply weighted_total_monotone; assumption.
Qed.

(** X7.  Of two readings, the second never gets a higher score nor a better
    tier than the first when it is no better in any factor: effective wind
    not lower, visibility not higher, non-negative precipitation total not
    lower, cloudiness not lower, and a temperature that is either not
    higher than the first's, the first's being at most 40, or not lower
    than the first's, the first's being at least -10 (so the second is
    no closer to the safe range on that side). *)
Theorem score_monotone (r1 r2 : WeatherData) :
  effective_wind (wind r1) <= effective_wind (wind r2) ->
  visibility r2 <= visibility r1 ->
  (current (temperature r2) <= current (temperature r1)
   /\ current (temperature r1) <= 40)
  \/ (-10 <= current (temperature r1)
      /\ current (temperature r1) <= current (temperature r2)) ->
  0 <= total_precip (precipitation r1) ->
  total_precip (precipitation r1) <= total_precip (precipitation r2) ->
  cloudiness r1 <= cloudiness r2 ->
  let s1 := calculate_flight_score FlightAnalyzer_init (Some r1) in
  let s2 := calculate_flight_score FlightAnalyzer_init (Some r2) in
  (fst s2 <= fst s1)%Z /\ (tier_rank (snd s2) <= tier_rank (snd s1))%Z.
Proof.
  intros W V T P0 P C s1 s2.
  assert (R0 : 0 <= Py.round64 (total_precip (precipitation r1)))
    by (apply round64_nonneg, P0).
  assert (R : Py.round64 (total_precip (precipitation r1))
              <= Py.round64 (total_precip (precipitation r2)))
    by (apply round64_monotone, P).
  assert (S : (fst s2 <= fst s1)%Z).
  { subst s1 s2. rewrite !score_of_reading. apply Qfloor_resp_le.
    apply total_monotone.
    - rewrite !analyze_wind_subscore. apply wind_subscore_antitone, W.
    - vis_cases (visibility r2) E2; vis_cases (visibility r1) E1;
        rewrite E1, E2; first [lia | exfalso; lra].
    - temp_cases (current (temperature r1)) E1;
        temp_cases (current (temperature r2)) E2; rewrite E1, E2;
        destruct T as [[? ?]|[? ?]]; lra.
    - precip_cases (precipitation r1) E1; precip_cases (precipitation r2) E2;
        rewrite E1, E2; first [lia | exfalso; lra].
    - cloud_cases (cloudiness r1) E1; cloud_cases (cloudiness r2) E2;
        rewrite E1, E2; first [lia | exfalso; lra]. }
  split; [exact S|].
  subst s1 s2. rewrite !tier_of_reading. apply tier_rank_monotone, S.
Qed.

Lemma score_monotone_witness :
  let s1 := calculate_flight_score FlightAnalyzer_init (Some breeze) in
  let s2 := calculate_flight_score FlightAnalyzer_init
              (Some (with_gust breeze 30)) in
  (fst s2 <= fst s1)%Z /\ (tier_rank (snd s2) <= tier_rank (snd s1))%Z.
Proof.
  apply (score_monotone breeze (with_gust breeze 30)).
  - vm_compute. discriminate.
  - vm_compute. discriminate.
  - left. split; vm_compute; discriminate.
  - vm_compute. discriminate.
  - vm_compute. discriminate.
  - vm_compute. discriminate.
Defined.

(** X8.  With all five factors in their best bracket (effective wind at most
    15, visibility at least 10, temperature in [-10, 40], no precipitation,
    cloudiness at most 25) the result is the score 100 and the tier SAFE.
    Conversely the score 100 is returned only with wind, visibility,
    precipitation and cloudiness in their best bracket and the temperature
    less than 0.02 degrees outside the safe range. *)
Theorem score_100_all_best (r : WeatherData) :
  let e := effective_wind (wind r) in
  let t := current (temperature r) in
  (e <= 15 /\ 10 <= visibility r /\ -10 <= t <= 40
   /\ total_precip (precipitation r) == 0 /\ cloudiness r <= 25 ->
   calculate_flight_score FlightAnalyzer_init (Some r) = (100%Z, SAFE))
  /\ (fst (calculate_flight_score FlightAnalyzer_init (Some r)) = 100%Z ->
      e <= 15 /\ 10 <= visibility r /\ - (1001 # 100) < t < 4002 # 100
      /\ total_precip (precipitation r) == 0 /\ cloudiness r <= 25).
Proof.
  intros e t. subst e t.
  destruct (subscore_ranges r)
    as ([W0 W1] & [V0 V1] & [T0 T1] & [P0 P1] & [C0 C1]).
  destruct (rounded_total_sign (precipitation r)) as (_ & _ & Z0).
  split.
  - intros (Hw & Hv & Ht & Hp & Hc). apply Z0 in Hp.
    unfold calculate_flight_score.
    rewrite total_of_reading, analyze_wind_subscore.
    destruct (wind_subscore_cases (effective_wind (wind r)))
      as [[_ Ew]|[Hw' _]]; [|lra].
    vis_cases (visibility r) Ev; try lra.
    precip_cases (precipitation r) Ep; try lra; try contradiction.
    cloud_cases (cloudiness r) Ec; try lra.
    temp_cases (current (temperature r)) Et; try lra.
    rewrite Ew, Ev, Ep, Ec, Et. vm_compute. reflexivity.
  - intro H.
    assert (N : forall ws vs ts ps cs : Q,
               inject_Z (_analyze_wind FlightAnalyzer_init (wind r)) <= ws ->
               inject_Z (_analyze_visibility FlightAnalyzer_init
                           (visibility r)) <= vs ->
               _analyze_temperature FlightAnalyzer_init
                 (current (temperature r)) <= ts ->
               inject_Z (_analyze_precipitation FlightAnalyzer_init
                           (precipitation r)) <= ps ->
               inject_Z (_analyze_clouds (cloudiness r)) <= cs ->
               weighted_total ws vs ts ps cs < 100 -> False).
    { intros ws vs ts ps cs W V T P C L.
      pose proof (score_lt r ws vs ts ps cs 100 W V T P C L). lia. }
    assert (Hw : effective_wind (wind r) <= 15).
    { destruct (wind_subscore_cases (effective_wind (wind r)))
        as [[Hw _]|[_ Ew]]; [exact Hw|].
      exfalso. apply (N 70 100 100 100 100); try assumption.
      - rewrite analyze_wind_subscore. rewrite Zle_Qle in Ew. exact Ew.
      - vm_compute. reflexivity. }
    assert (Hv : 10 <= visibility r).
    { vis_cases (visibility r) Ev; [assumption|..];
        exfalso; apply (N 100 70 100 100 100); try assumption;
        first [rewrite Ev; vm_compute; discriminate | vm_compute; reflexivity]. }
    assert (Hp : total_precip (precipitation r) == 0).
    { precip_cases (precipitation r) Ep; [apply Z0; assumption|..];
        exfalso; apply (N 100 100 100 80 100); try assumption;
        first [rewrite Ep; vm_compute; discriminate | vm_compute; reflexivity]. }
    assert (Hc : cloudiness r <= 25).
    { cloud_cases (cloudiness r) Ec; [assumption|..];
        exfalso; apply (N 100 100 100 100 85); try assumption;
        first [rewrite Ec; vm_compute; discriminate | vm_compute; reflexivity]. }
    assert (Ht : - (1001 # 100) < current (temperature r) < 4002 # 100).
    { destruct (Qlt_le_dec (- (1001 # 100)) (current (temperature r)))
        as [L|L];
        [destruct (Qlt_le_dec (current (temperature r)) (4002 # 100))
           as [U|U]; [split; assumption|]|];
        exfalso; apply (N 100 100 (9995 # 100) 100 100); try assumption;
        first [ temp_cases (current (temperature r)) Et; rewrite Et; lra
              | vm_compute; reflexivity ]. }
    repeat split; try assumption; apply Ht.
Qed.

(** X9.  NO_FLY is never returned at visibility 10 km or more, nor at an
    effective wind of 15 km/h or less, whatever the other factors. *)
Theorem no_fly_needs_wind_and_poor_visibility (r : WeatherData) :
  snd (calculate_flight_score FlightAnalyzer_init (Some r)) = NO_FLY ->
  visibility r < 10 /\ 15 < effective_wind (wind r).
Proof.
  rewrite tier_of_reading, tier_no_fly.
  destruct (subscore_ranges r)
    as ([W0 W1] & [V0 V1] & [T0 T1] & [P0 P1] & [C0 C1]).
  intro H. split.
  - vis_cases (visibility r) Ev; try lra.
    assert (S : (30 <= fst (calculate_flight_score FlightAnalyzer_init
                              (Some r)))%Z).
    { apply (score_ge r 0 100 0 0 50); try assumption.
      - rewrite Ev. apply Qle_refl.
      - vm_compute. discriminate. }
    lia.
  - destruct (wind_subscore_cases (effective_wind (wind r))) as [[_ Ew]|[Hw _]];
      [|exact Hw].
    assert (S : (30 <= fst (calculate_flight_score FlightAnalyzer_init
                              (Some r)))%Z).
    { apply (score_ge r 100 0 0 0 50); try assumption.
      - rewrite analyze_wind_subscore, Ew. apply Qle_refl.
      - vm_compute. discriminate. }
    lia.
Qed.

Lemma no_fly_needs_wind_and_poor_visibility_witness :
  snd (calculate_flight_score FlightAnalyzer_init (Some at_29)) = NO_FLY
  /\ visibility at_29 < 10 /\ 15 < effective_wind (wind at_29).
Proof.
  assert (H : snd (calculate_flight_score FlightAnalyzer_init (Some at_29))
              = NO_FLY) by (vm_compute; reflexivity).
  split; [exact H|].
  exact (no_fly_needs_wind_and_poor_visibility at_29 H).
Defined.

(** X10.  Wind alone never lowers the tier below CAUTION: with visibility at
    least 10, temperature in the safe range and no precipitation, the score
    is at least 65 however strong the wind and however dense the cloud. *)
Theorem wind_alone_at_worst_caution (r : WeatherData) :
  10 <= visibility r ->
  -10 <= current (temperature r) <= 40 ->
  total_precip (precipitation r) == 0 ->
  let s := calculate_flight_score FlightAnalyzer_init (Some r) in
  (65 <= fst s)%Z /\ (snd s = SAFE \/ snd s = CAUTION).
Proof.
  intros Hv Ht Hp s.
  assert (S : (65 <= fst s)%Z).
  { subst s.
    destruct (subscore_ranges r) as ([W0 _] & _ & _ & _ & [C0 _]).
    destruct (rounded_total_sign (precipitation r)) as (_ & _ & Z0).
    apply Z0 in Hp.
    vis_cases (visibility r) Ev; try lra.
    precip_cases (precipitation r) Ep; try lra; try contradiction.
    temp_cases (current (temperature r)) Et; try lra.
    apply (score_ge r 0 100 100 100 50); try assumption.
    - rewrite Ev. apply Qle_refl.
    - rewrite Et. apply Qle_refl.
    - rewrite Ep. apply Qle_refl.
    - vm_compute. discriminate. }
  split; [exact S|].
  subst s. rewrite tier_of_reading. unfold tier_of_aggregate.
  destruct (80 <=? _)%Z; [left; reflexivity|].
  destruct (60 <=? _)%Z eqn:E; [right; reflexivity|].
  apply Z.leb_gt in E. lia.
Qed.

Lemma wind_alone_at_worst_caution_witness :
  let s := calculate_flight_score FlightAnalyzer_init (Some (gale 90 100)) in
  (65 <= fst s)%Z /\ (snd s = SAFE \/ snd s = CAUTION).
Proof.
  apply (wind_alone_at_worst_caution (gale 90 100)).
  - vm_compute. discriminate.
  - split; vm_compute; discriminate.
  - vm_compute. reflexivity.
Defined.

(* ================================================================== *)
(** * Further properties of the alert evaluator *)

Lemma in_stamp_content (clk : nat -> string) (specs : list AlertSpec)
  (a : WeatherAlert) :
  forall n, In a (stamp clk n specs) -> In (content a) specs.
Proof.
  induction specs as [|[[l t] m] specs IH]; intros n H; simpl in *.
  - exact H.
  - destruct H as [H|H].
    + left. subst a. reflexivity.
    + right. exact (IH _ H).
Qed.

Lemma in_alerts_rules (r : WeatherData) (w : World) (a : WeatherAlert) :
  In a (fst (check_weather_alerts r w)) -> In (content a) (alert_rules r).
Proof.
  rewrite check_weather_alerts_run. apply in_stamp_content.
Qed.

Lemma in_rules_alerts (r : WeatherData) (w : World) (s : AlertSpec) :
  In s (alert_rules r) ->
  exists a, In a (fst (check_weather_alerts r w)) /\ content a = s.
Proof.
  rewrite check_weather_alerts_run. unfold fst.
  generalize (reads w). induction (alert_rules r) as [|[[l t] m] specs IH];
    intros n H; simpl in *.
  - contradiction.
  - destruct H as [H|H].
    + eexists. split; [left; reflexivity|]. exact H.
    + destruct (IH (S n) H) as (a & Ha & Ea).
      exists a. split; [right; exact Ha|exact Ea].
Qed.

(** Case analysis on the rule that contributed a member of
    [alert_rules]: one goal per rule and bracket, with the member
    replaced by what the bracket appends and the tests of the rule kept as
    equations. *)
Ltac in_rules H :=
  unfold alert_rules in H;
  repeat (apply in_app_or in H; destruct H as [H|H]);
  [ unfold wind_rule in H | unfold visibility_rule in H
  | unfold temperature_rule in H | unfold precipitation_rule in H
  | unfold pressure_rule in H | unfold category_rule in H ];
  repeat match type of H with
         | context [if ?c then _ else _] =>
             let E := fresh "E" in destruct c eqn:E
         end;
  simpl in H;
  repeat (destruct H as [H|H]); try contradiction; subst.

(** Condition to prove from a test kept as an equation. *)
Ltac by_test :=
  repeat match goal with
         | E : Py.gt _ _ = true |- _ => unfold Py.gt in E; apply lt_true in E
         | E : Py.lt _ _ = true |- _ => apply lt_true in E
         | E : Py.gt _ _ = false |- _ => unfold Py.gt in E; apply lt_false in E
         | E : Py.lt _ _ = false |- _ => apply lt_false in E
         end.

Lemma severe_alert_condition (r : WeatherData) (s : AlertSpec) :
  In s (alert_rules r) ->
  snd (fst s) = "Extreme Wind Warning"
  \/ snd (fst s) = "High Wind Warning"
  \/ snd (fst s) = "Low Visibility Warning" ->
  30 < speed (wind r) \/ visibility r < 1.
Proof.
  intros H T. in_rules H; simpl in T;
    destruct T as [T|[T|T]]; try discriminate T; by_test;
    first [left; lra | right; lra].
Qed.

(** X11.  Whenever the evaluator reports the Extreme Wind Warning, the High
    Wind Warning or the Low Visibility Warning, the score of the reading is
    at most 79 and its tier is not SAFE. *)
Theorem severe_alert_excludes_safe (r : WeatherData) (w : World)
  (a : WeatherAlert) :
  In a (fst (check_weather_alerts r w)) ->
  title a = "Extreme Wind Warning"
  \/ title a = "High Wind Warning"
  \/ title a = "Low Visibility Warning" ->
  (fst (calculate_flight_score FlightAnalyzer_init (Some r)) <= 79)%Z
  /\ snd (calculate_flight_score FlightAnalyzer_init (Some r)) <> SAFE.
Proof.
  intros H T. apply in_alerts_rules in H.
  pose proof (severe_alert_condition r (content a) H T) as C.
  assert (S : (fst (calculate_flight_score FlightAnalyzer_init (Some r))
               <= 79)%Z).
  { destruct (subscore_ranges r)
      as ([W0 W1] & [V0 V1] & [T0 T1] & [P0 P1] & [C0 C1]).
    destruct C as [C|C].
    - destruct (effective_wind_max (wind r)) as (Hs & _ & _).
      assert (B : (wind_subscore (effective_wind (wind r)) <= 30)%Z)
        by (apply wind_subscore_above_30; lra).
      rewrite Zle_Qle in B.
      apply (score_le r 30 100 100 100 100); try assumption.
      vm_compute. discriminate.
    - vis_cases (visibility r) Ev; try lra.
      apply (score_le r 100 0 100 100 100); try assumption.
      + rewrite Ev. apply Qle_refl.
      + vm_compute. discriminate. }
  split; [exact S|].
  rewrite tier_of_reading, tier_safe. lia.
Qed.

Lemma severe_alert_excludes_safe_witness :
  (fst (calculate_flight_score FlightAnalyzer_init (Some (gale 0 0))) <= 79)%Z
  /\ snd (calculate_flight_score FlightAnalyzer_init (Some (gale 0 0)))
     <> SAFE.
Proof.
  apply (severe_alert_excludes_safe (gale 0 0) world0
           {| level := EMERGENCY;
              title := "Extreme Wind Warning";
              message := "Wind speed 45.0 km/h exceeds safe limits. DO NOT FLY.";
              timestamp := "2026-01-01T12:00:00.000000" |}).
  - vm_compute. left. reflexivity.
  - left. reflexivity.
Defined.

Lemma rule_lengths (r : WeatherData) :
  (List.length (wind_rule r) <= 1)%nat
  /\ (List.length (visibility_rule r) <= 1)%nat
  /\ (List.length (temperature_rule r) <= 1)%nat
  /\ (List.length (precipitation_rule r) <= 1)%nat
  /\ (List.length (pressure_rule r) <= 1)%nat
  /\ (List.length (category_rule r) <= 1)%nat.
Proof.
  unfold wind_rule, visibility_rule, temperature_rule, precipitation_rule,
    pressure_rule, category_rule.
  repeat split;
    repeat match goal with
           | |- context [if ?c then _ else _] => destruct c
           end; simpl; lia.
Qed.

(** X12.  A call of the evaluator returns at most six alerts, and reads the
    clock once per alert it returns. *)
Theorem at_most_six_alerts (r : WeatherData) (w : World) :
  let res := check_weather_alerts r w in
  (List.length (fst res) <= 6)%nat
  /\ reads (snd res) = (List.length (fst res) + reads w)%nat
  /\ clock (snd res) = clock w.
Proof.
  intro res. subst res. rewrite check_weather_alerts_run.
  unfold fst, snd, reads, clock. rewrite length_stamp.
  split; [|split; reflexivity].
  unfold alert_rules. rewrite !length_app.
  destruct (rule_lengths r) as (L1 & L2 & L3 & L4 & L5 & L6). lia.
Qed.

Lemma lower_ascii_idempotent (c : ascii) :
  Py.lower_ascii (Py.lower_ascii c) = Py.lower_ascii c.
Proof.
  destruct c as [[] [] [] [] [] [] [] []]; reflexivity.
Qed.

Lemma lower_idempotent (s : string) : Py.lower (Py.lower s) = Py.lower s.
Proof.
  induction s as [|c s IH]; simpl.
  - reflexivity.
  - rewrite lower_ascii_idempotent, IH. reflexivity.
Qed.

(** X13.  The category rule does not see the case of the label: a reading and
    the same reading with its label in lower case get the same alerts. *)
Theorem category_alert_case_insensitive (r : WeatherData) (w : World) :
  check_weather_alerts (with_main r (Py.lower (main (weather r)))) w
  = check_weather_alerts r w.
Proof.
  rewrite !check_weather_alerts_run.
  assert (E : alert_rules (with_main r (Py.lower (main (weather r))))
              = alert_rules r).
  { unfold alert_rules. f_equal. f_equal. f_equal. f_equal. f_equal.
    unfold category_rule. simpl. rewrite lower_idempotent. reflexivity. }
  rewrite E. reflexivity.
Qed.

Lemma tornado_rule_condition (r : WeatherData) (s : AlertSpec) :
  In s (alert_rules r) ->
  snd (fst s) = "Tornado Warning" ->
  Py.contains "thunderstorm" (Py.lower (main (weather r))) = false.
Proof.
  intros H T. in_rules H; simpl in T; try discriminate T. reflexivity.
Qed.

(** X14.  A label that mentions a thunderstorm raises the Thunderstorm Warning
    and never the Tornado Warning, even if it mentions a tornado too. *)
Theorem thunderstorm_hides_tornado (r : WeatherData) (w : World) :
  Py.contains "thunderstorm" (Py.lower (main (weather r))) = true ->
  let titles := map title (fst (check_weather_alerts r w)) in
  In "Thunderstorm Warning" titles /\ ~ In "Tornado Warning" titles.
Proof.
  intros H titles. subst titles. split.
  - destruct (in_rules_alerts r w
                (EMERGENCY, "Thunderstorm Warning",
                 "Thunderstorm conditions detected. IMMEDIATE LANDING REQUIRED."))
      as (a & Ha & Ea).
    { unfold alert_rules. repeat (apply in_or_app; right).
      unfold category_rule. rewrite H. left. reflexivity. }
    apply in_map_iff. exists a. split; [|exact Ha].
    apply (f_equal (fun s => snd (fst s))) in Ea. exact Ea.
  - intro G. apply in_map_iff in G. destruct G as (a & Ta & Ha).
    apply in_alerts_rules in Ha.
    pose proof (tornado_rule_condition r (content a) Ha Ta). congruence.
Qed.

Lemma thunderstorm_hides_tornado_witness :
  let r := with_main clear_day "Tornado within a Thunderstorm" in
  let titles := map title (fst (check_weather_alerts r world0)) in
  In "Thunderstorm Warning" titles /\ ~ In "Tornado Warning" titles.
Proof.
  apply (thunderstorm_hides_tornado
           (with_main clear_day "Tornado within a Thunderstorm") world0).
  vm_compute. reflexivity.
Defined.

(* ================================================================== *)
(** * Density altitude *)

(** X15.  The density altitude never decreases when the temperature rises
    and never decreases when the pressure falls, whatever the elevation
    arguments: the elevation is not read. *)
Theorem density_altitude_monotone (p1 t1 e1 p2 t2 e2 : Q) :
  p2 <= p1 -> t1 <= t2 ->
  calculate_density_altitude p1 t1 e1 <= calculate_density_altitude p2 t2 e2.
Proof.
  intros P T. unfold calculate_density_altitude.
  assert (K1 : 0 <= Py.float (2953 # 100000))
    by (apply float_nonneg; discriminate).
  assert (K3 : 0 <= Py.float (198 # 100000))
    by (apply float_nonneg; discriminate).
  set (k2 := Py.float (2992 # 100)).
  assert (A : Py.fmul p2 (Py.float (2953 # 100000))
              <= Py.fmul p1 (Py.float (2953 # 100000))).
  { apply round64_monotone, Qmult_le_compat_r; assumption. }
  set (a1 := Py.fmul p1 (Py.float (2953 # 100000))) in *.
  set (a2 := Py.fmul p2 (Py.float (2953 # 100000))) in *.
  assert (B0 : Py.fsub k2 a1 <= Py.fsub k2 a2)
    by (apply round64_monotone; lra).
  assert (B : Py.fmul (Py.fsub k2 a1) 1000 <= Py.fmul (Py.fsub k2 a2) 1000)
    by (apply round64_monotone; lra).
  set (b1 := Py.fmul (Py.fsub k2 a1) 1000) in *.
  set (b2 := Py.fmul (Py.fsub k2 a2) 1000) in *.
  assert (C : Py.fmul b1 (Py.float (198 # 100000))
              <= Py.fmul b2 (Py.float (198 # 100000))).
  { apply round64_monotone, Qmult_le_compat_r; assumption. }
  set (c1 := Py.fmul b1 (Py.float (198 # 100000))) in *.
  set (c2 := Py.fmul b2 (Py.float (198 # 100000))) in *.
  assert (D : Py.fsub 15 c2 <= Py.fsub 15 c1)
    by (apply round64_monotone; lra).
  assert (F : Py.fsub t1 (Py.fsub 15 c1) <= Py.fsub t2 (Py.fsub 15 c2))
    by (apply round64_monotone; lra).
  assert (G : Py.fmul 120 (Py.fsub t1 (Py.fsub 15 c1))
              <= Py.fmul 120 (Py.fsub t2 (Py.fsub 15 c2)))
    by (apply round64_monotone; lra).
  apply round64_monotone. lra.
Qed.

Lemma density_altitude_monotone_witness :
  1000 <= 1013 /\ 15 <= 30
  /\ calculate_density_altitude 1013 15 0
     <= calculate_density_altitude 1000 30 500.
Proof.
  assert (P : 1000 <= 1013) by discriminate.
  assert (T : 15 <= 30) by discriminate.
  split; [exact P|]. split; [exact T|].
  exact (density_altitude_monotone 1013 15 0 1000 30 500 P T).
Defined.

(* ================================================================== *)
(** * Alert summary and alert display *)

(** ** Dictionaries *)

Section DictFacts.

Variables (K : Type) (eqb : K -> K -> bool).
Hypothesis eqb_spec : forall a b : K, eqb a b = true <-> a = b.

Lemma eqb_refl (a : K) : eqb a a = true.
Proof. apply eqb_spec. reflexivity. Qed.

Lemma eqb_neq (a b : K) : a <> b -> eqb a b = false.
Proof.
  intro H. destruct (eqb a b) eqn:E; [|reflexivity].
  apply eqb_spec in E. contradiction.
Qed.

Lemma dict_get_set {V : Type} (d : list (K * V)) (k k' : K) (v dflt : V) :
  Dict.get eqb (Dict.set eqb d k v) k' dflt
  = if eqb k k' then v else Dict.get eqb d k' dflt.
Proof.
  induction d as [|[k0 v0] d IH]; simpl.
  - reflexivity.
  - destruct (eqb k0 k) eqn:E0; simpl.
    + apply eqb_spec in E0. subst k0.
      destruct (eqb k k'); reflexivity.
    + destruct (eqb k0 k') eqn:E1; [|exact IH].
      apply eqb_spec in E1. subst k0. rewrite (eqb_neq k k'); [reflexivity|].
      intro H. subst k'. rewrite eqb_refl in E0. discriminate.
Qed.

Lemma dict_set_keys {V : Type} (d : list (K * V)) (k : K) (v : V) :
  map fst (Dict.set eqb d k v)
  = (if existsb (fun k' => eqb k' k) (map fst d) then map fst d
     else map fst d ++ [k])%list.
Proof.
  induction d as [|[k0 v0] d IH]; simpl.
  - reflexivity.
  - destruct (eqb k0 k) eqn:E0; simpl; [reflexivity|].
    rewrite IH. destruct (existsb _ _); reflexivity.
Qed.

Lemma dict_set_nodup {V : Type} (d : list (K * V)) (k : K) (v : V) :
  NoDup (map fst d) -> NoDup (map fst (Dict.set eqb d k v)).
Proof.
  intro H. rewrite dict_set_keys.
  destruct (existsb (fun k' => eqb k' k) (map fst d)) eqn:E; [exact H|].
  apply NoDup_app; [exact H|repeat constructor; simpl; tauto|].
  intros x Hx [Hk|[]]. subst x.
  assert (T : existsb (fun k' => eqb k' k) (map fst d) = true).
  { apply existsb_exists. exists k. split; [exact Hx|apply eqb_refl]. }
  congruence.
Qed.

Lemma dict_increment_sum (d : list (K * Z)) (k : K) :
  fold_right Z.add 0%Z (map snd (Dict.set eqb d k (Dict.get eqb d k 0 + 1)%Z))
  = (fold_right Z.add 0%Z (map snd d) + 1)%Z.
Proof.
  induction d as [|[k0 v0] d IH]; simpl.
  - reflexivity.
  - destruct (eqb k0 k) eqn:E0; simpl; [lia|]. rewrite IH. lia.
Qed.

End DictFacts.

Lemma AlertLevel_value_inj (a b : AlertLevel) :
  AlertLevel_value a = AlertLevel_value b -> a = b.
Proof. destruct a, b; simpl; intro H; try reflexivity; discriminate H. Qed.

Lemma AlertLevel_eqb_eq (a b : AlertLevel) :
  AlertLevel_eqb a b = true <-> a = b.
Proof. destruct a, b; simpl; split; intro H; try reflexivity; discriminate H. Qed.

(** ** The counting loop *)

Lemma count_loop (alerts : list WeatherAlert) :
  forall d : list (string * Z),
    NoDup (map fst d) ->
    let d' := fold_left count_step alerts d in
    NoDup (map fst d')
    /\ fold_right Z.add 0%Z (map snd d')
       = (fold_right Z.add 0%Z (map snd d) + Z.of_nat (List.length alerts))%Z
    /\ forall l : AlertLevel,
         Dict.get String.eqb d' (AlertLevel_value l) 0%Z
         = (Dict.get String.eqb d (AlertLevel_value l) 0
            + Z.of_nat (List.length
                          (filter (fun a => AlertLevel_eqb (level a) l) alerts)))%Z.
Proof.
  induction alerts as [|a alerts IH]; intros d N; simpl.
  - repeat split; [exact N|lia|intro l; lia].
  - destruct (IH (count_step d a)) as (N' & S' & G').
    { apply dict_set_nodup; [apply String.eqb_eq|exact N]. }
    split; [exact N'|]. split.
    + rewrite S'. unfold count_step. cbv zeta.
      rewrite dict_increment_sum. lia.
    + intro l. rewrite G'. unfold count_step at 1. cbv zeta.
      rewrite (dict_get_set _ String.eqb String.eqb_eq).
      destruct (AlertLevel_eqb (level a) l) eqn:E.
      * apply AlertLevel_eqb_eq in E. subst l.
        rewrite String.eqb_refl. simpl List.length. lia.
      * rewrite (eqb_neq _ String.eqb String.eqb_eq).
        -- lia.
        -- intro H. apply AlertLevel_value_inj in H.
           apply AlertLevel_eqb_eq in H. congruence.
Qed.

(** X16.  The dictionary built by the counting loop of [get_alert_summary] lists
    each level once, maps each level to the number of alerts of that
    level, and its counts add up to the number of alerts. *)
Theorem summary_counts (alerts : list WeatherAlert) :
  let alert_counts := count_levels alerts in
  NoDup (map fst alert_counts)
  /\ fold_right Z.add 0%Z (map snd alert_counts)
     = Z.of_nat (List.length alerts)
  /\ forall l : AlertLevel,
       Dict.get String.eqb alert_counts (AlertLevel_value l) 0%Z
       = Z.of_nat (List.length
                     (filter (fun a => AlertLevel_eqb (level a) l) alerts)).
Proof.
  intro alert_counts. subst alert_counts. unfold count_levels.
  destruct (count_loop alerts [] (NoDup_nil _)) as (N & S & G).
  split; [exact N|]. split; [exact S|]. intro l. rewrite (G l). reflexivity.
Qed.

(** ** The two reports *)

Lemma formatted_lines_acc (alerts : list WeatherAlert) :
  forall acc : list string,
    fold_left
      (fun formatted alert =>
         let emoji :=
           Dict.get AlertLevel_eqb format_emoji (level alert) "📢" in
         ((formatted
             ++ [(emoji ++ " " ++ AlertLevel_value (level alert) ++ ": "
                    ++ title alert)%string])
            ++ [("   " ++ message alert)%string])%list)
      alerts acc
    = (acc ++ flat_map alert_lines alerts)%list.
Proof.
  induction alerts as [|a alerts IH]; intro acc; simpl.
  - rewrite app_nil_r. reflexivity.
  - rewrite IH. rewrite <- !app_assoc. reflexivity.
Qed.

Lemma formatted_lines_flat_map (alerts : list WeatherAlert) :
  formatted_lines alerts = flat_map alert_lines alerts.
Proof. unfold formatted_lines. apply formatted_lines_acc. Qed.

Lemma fold_left_content {B : Type} (f : B -> WeatherAlert -> B) :
  (forall b a a', content a = content a' -> f b a = f b a') ->
  forall l1 l2 b,
    map content l1 = map content l2 -> fold_left f l1 b = fold_left f l2 b.
Proof.
  intros Hf l1. induction l1 as [|a l1 IH]; intros [|a' l2] b H;
    simpl in *; try discriminate; [reflexivity|].
  assert (Ha : content a = content a') by congruence.
  assert (Hl : map content l1 = map content l2) by congruence.
  rewrite (Hf b a a' Ha). apply IH. exact Hl.
Qed.

Lemma content_level (a a' : WeatherAlert) :
  content a = content a' ->
  level a = level a' /\ title a = title a' /\ message a = message a'.
Proof. unfold content. intro H. injection H as H1 H2 H3. auto. Qed.

(** Both reports are functions of level, title and message of the stored
    alerts. *)
Lemma reports_of_content (w w' : World) :
  map content (active_alerts w) = map content (active_alerts w') ->
  get_alert_summary w = get_alert_summary w'
  /\ format_alerts w = format_alerts w'.
Proof.
  intro H. unfold get_alert_summary, format_alerts.
  assert (C : count_levels (active_alerts w) = count_levels (active_alerts w')).
  { unfold count_levels. apply fold_left_content; [|exact H].
    intros b a a' E. destruct (content_level a a' E) as (L & _ & _).
    unfold count_step. rewrite L. reflexivity. }
  assert (F : formatted_lines (active_alerts w)
              = formatted_lines (active_alerts w')).
  { unfold formatted_lines. apply fold_left_content; [|exact H].
    intros b a a' E. destruct (content_level a a' E) as (L & T & M).
    rewrite L, T, M. reflexivity. }
  rewrite C, F.
  destruct (active_alerts w), (active_alerts w'); simpl in H;
    try discriminate; split; reflexivity.
Qed.

(** X17.  What the two reports show after an evaluation depends on the reading
    alone: not on the clock, and not on the alerts stored before. *)
Theorem reports_ignore_clock (r : WeatherData) (w w' : World) :
  get_alert_summary (snd (check_weather_alerts r w))
  = get_alert_summary (snd (check_weather_alerts r w'))
  /\ format_alerts (snd (check_weather_alerts r w))
     = format_alerts (snd (check_weather_alerts r w')).
Proof.
  apply reports_of_content. rewrite !check_weather_alerts_run.
  unfold snd, active_alerts. rewrite !content_stamp. reflexivity.
Qed.

(** X18.  Each report shows its no-alert line exactly when no alert is stored. *)
Theorem reports_empty_iff (w : World) :
  (get_alert_summary w = "✅ No active weather alerts"
   <-> active_alerts w = [])
  /\ (format_alerts w = "✅ No weather alerts" <-> active_alerts w = []).
Proof.
  unfold get_alert_summary, format_alerts.
  rewrite formatted_lines_flat_map.
  destruct (active_alerts w) as [|a l].
  - repeat split.
  - split; split; intro H; try discriminate H.
    exfalso. simpl in H. unfold alert_lines in H.
    destruct (level a); simpl in H;
      destruct (flat_map alert_lines l); simpl in H; discriminate H.
Qed.

(** ** Lines of the alert display *)

Lemma free_of_app (c : ascii) (a b : string) :
  free_of c (a ++ b) = free_of c a && free_of c b.
Proof.
  induction a as [|x a IH]; simpl.
  - reflexivity.
  - rewrite IH. apply andb_assoc.
Qed.

Lemma free_of_cons (c a : ascii) (s : string) :
  free_of c (String a s) = negb (Ascii.eqb a c) && free_of c s.
Proof. reflexivity. Qed.

Lemma str_split_free (c : ascii) (s : string) :
  free_of c s = true -> str_split c s = [s].
Proof.
  induction s as [|a s IH]; simpl; intro H.
  - reflexivity.
  - apply andb_true_iff in H. destruct H as [Ha Hs].
    apply negb_true_iff in Ha. rewrite Ha, (IH Hs). reflexivity.
Qed.

Lemma str_split_app (c : ascii) (x y : string) :
  free_of c x = true ->
  str_split c (x ++ String c y) = x :: str_split c y.
Proof.
  induction x as [|a x IH]; simpl; intro H.
  - rewrite Ascii.eqb_refl. reflexivity.
  - apply andb_true_iff in H. destruct H as [Ha Hx].
    apply negb_true_iff in Ha. rewrite Ha, (IH Hx). reflexivity.
Qed.

(** Splitting at the separator undoes joining, for parts that do not
    contain the separator. *)
Lemma str_split_join (c : ascii) (parts : list string) :
  parts <> [] ->
  forallb (free_of c) parts = true ->
  str_split c (str_join (String c "") parts) = parts.
Proof.
  induction parts as [|p rest IH]; intros N F; [contradiction|].
  simpl in F. apply andb_true_iff in F. destruct F as [Fp Fr].
  destruct rest as [|q rest].
  - simpl. apply str_split_free, Fp.
  - change (str_join (String c "") (p :: q :: rest))
      with (p ++ String c (str_join (String c "") (q :: rest))).
    rewrite (str_split_app c p _ Fp). f_equal.
    apply IH; [discriminate|exact Fr].
Qed.

Lemma uint_free_of_lf (u : Decimal.uint) :
  free_of LF (NilEmpty.string_of_uint u) = true.
Proof. induction u; simpl; try reflexivity; exact IHu. Qed.

Lemma digits_free_of_lf (n : Z) : free_of LF (Py.digits n) = true.
Proof.
  unfold Py.digits, NilZero.string_of_uint.
  destruct (N.to_uint (Z.to_N n)); try apply uint_free_of_lf. reflexivity.
Qed.

Lemma format_1f_free_of_lf (x : Q) : free_of LF (Py.format_1f x) = true.
Proof.
  unfold Py.format_1f. cbv zeta.
  rewrite !free_of_app, !digits_free_of_lf.
  destruct (Py.lt x 0); reflexivity.
Qed.

Lemma frac_digits_free_of_lf (fuel : nat) :
  forall r d : Z, free_of LF (Py.frac_digits fuel r d) = true.
Proof.
  induction fuel as [|k IH]; intros r d; simpl; [reflexivity|].
  destruct (r =? 0)%Z; [reflexivity|].
  rewrite free_of_app, digits_free_of_lf, IH. reflexivity.
Qed.

Lemma str_free_of_lf (n : Py.num) : free_of LF (Py.str n) = true.
Proof.
  destruct n as [z|q]; unfold Py.str; cbv zeta.
  - rewrite free_of_app, digits_free_of_lf.
    destruct (z <? 0)%Z; reflexivity.
  - rewrite !free_of_app, digits_free_of_lf.
    destruct (Py.lt q 0); destruct (_ =? 0)%Z;
      rewrite ?frac_digits_free_of_lf; reflexivity.
Qed.

(** No title and no message of the evaluator contains a line feed. *)
Lemma rules_free_of_lf (r : WeatherData) (s : AlertSpec) :
  In s (alert_rules r) ->
  free_of LF (snd (fst s)) = true /\ free_of LF (snd s) = true.
Proof.
  intro H. in_rules H; unfold fst, snd; split; try reflexivity;
    rewrite ?free_of_cons, ?free_of_app, ?format_1f_free_of_lf,
      ?str_free_of_lf;
    reflexivity.
Qed.

Lemma alert_lines_free_of_lf (a : WeatherAlert) :
  free_of LF (title a) = true -> free_of LF (message a) = true ->
  forallb (free_of LF) (alert_lines a) = true.
Proof.
  intros T M. unfold alert_lines. cbv zeta.
  destruct (level a); simpl; rewrite T, M; reflexivity.
Qed.

Lemma flat_map_lines_free_of_lf (l : list WeatherAlert) :
  (forall a, In a l -> forallb (free_of LF) (alert_lines a) = true) ->
  forallb (free_of LF) (flat_map alert_lines l) = true.
Proof.
  induction l as [|x xs IH]; intro F; [reflexivity|].
  change (flat_map alert_lines (x :: xs))
    with (alert_lines x ++ flat_map alert_lines xs)%list.
  rewrite forallb_app, (F x (or_introl eq_refl)).
  apply IH. intros a Ha. apply F. right. exact Ha.
Qed.

Lemma length_flat_map_lines (l : list WeatherAlert) :
  List.length (flat_map alert_lines l) = (2 * List.length l)%nat.
Proof.
  induction l as [|x xs IH]; [reflexivity|]. simpl. rewrite IH. lia.
Qed.

(** X19.  The display of the alerts of an evaluation splits at the line feeds
    into exactly two lines per alert: the line with emoji, level and
    title, and the message indented by three blanks. *)
Theorem format_alerts_two_lines_each (r : WeatherData) (w : World) :
  fst (check_weather_alerts r w) <> [] ->
  let alerts := fst (check_weather_alerts r w) in
  let lines := str_split LF (format_alerts (snd (check_weather_alerts r w))) in
  lines = flat_map alert_lines alerts
  /\ List.length lines = (2 * List.length alerts)%nat.
Proof.
  intros N alerts lines.
  assert (E : active_alerts (snd (check_weather_alerts r w)) = alerts).
  { subst alerts. rewrite check_weather_alerts_run. reflexivity. }
  assert (F : forallb (free_of LF) (flat_map alert_lines alerts) = true).
  { apply flat_map_lines_free_of_lf. intros a Ha.
    apply in_alerts_rules in Ha.
    destruct (rules_free_of_lf r (content a) Ha) as [T M].
    apply alert_lines_free_of_lf; assumption. }
  assert (L : lines = flat_map alert_lines alerts).
  { subst lines. unfold format_alerts. rewrite E, formatted_lines_flat_map.
    fold alerts in N. clearbody alerts.
    destruct alerts as [|a l]; [contradiction|].
    apply str_split_join; [discriminate|exact F]. }
  split; [exact L|]. rewrite L. apply length_flat_map_lines.
Qed.

Lemma format_alerts_two_lines_each_witness :
  let alerts := fst (check_weather_alerts (gale 0 0) world0) in
  let lines :=
    str_split LF (format_alerts (snd (check_weather_alerts (gale 0 0) world0))) in
  lines = flat_map alert_lines alerts
  /\ List.length lines = (2 * List.length alerts)%nat.
Proof.
  apply (format_alerts_two_lines_each (gale 0 0) world0).
  vm_compute. discriminate.
Defined.

(* ================================================================== *)
(** * The Tomorrow.io fetcher *)

Lemma values_find_get (values : Values) (key : string) (default : Py.num) :
  Dict.get String.eqb values key default
  = match values_find values key with
    | Some v => v
    | None => default
    end.
Proof.
  induction values as [|[k v] rest IH]; simpl; [reflexivity|].
  destruct (String.eqb k key); [reflexivity|exact IH].
Qed.

Lemma num_eqb_int (k : Z) (code : Py.num) :
  num_eqb (Py.Int k) code = true <-> Py.value code == inject_Z k.
Proof.
  unfold num_eqb. rewrite eq_true. simpl. split; intro H; lra.
Qed.

(** The description of a weather code mentions a thunderstorm for code
    8000 only, and never a tornado. *)
Lemma description_category (code : Py.num) :
  Py.contains "tornado" (Py.lower (_get_weather_code_description code)) = false
  /\ (Py.contains "thunderstorm"
        (Py.lower (_get_weather_code_description code)) = true
      <-> Py.value code == 8000).
Proof.
  unfold _get_weather_code_description, weather_codes. simpl Dict.get.
  repeat match goal with
         | |- context [if num_eqb (Py.Int ?k) code then _ else _] =>
             let E := fresh "E" in
             destruct (num_eqb (Py.Int k) code) eqn:E;
             [ apply num_eqb_int in E;
               split; [reflexivity|];
               split; intro H;
               [ try discriminate H; try exact E
               | try reflexivity;
                 exfalso; rewrite H in E; vm_compute in E; discriminate E ]
             | ]
         end.
  split; [reflexivity|]. split; intro H; [discriminate H|].
  apply num_eqb_int in H. congruence.
Qed.

Lemma category_titles (r : WeatherData) (w : World) :
  let titles := map title (fst (check_weather_alerts r w)) in
  (In "Thunderstorm Warning" titles
   <-> Py.contains "thunderstorm" (Py.lower (main (weather r))) = true)
  /\ (In "Tornado Warning" titles
      -> Py.contains "tornado" (Py.lower (main (weather r))) = true).
Proof.
  intro titles. subst titles. split; [split|].
  - intro G. apply in_map_iff in G. destruct G as (a & Ta & Ha).
    apply in_alerts_rules in Ha. unfold content in Ha.
    remember (level a, title a, message a) as s eqn:Es.
    assert (T : snd (fst s) = "Thunderstorm Warning") by (subst s; exact Ta).
    clear Es Ta. in_rules Ha; simpl in T; try discriminate T. reflexivity.
  - intro H.
    destruct (in_rules_alerts r w
                (EMERGENCY, "Thunderstorm Warning",
                 "Thunderstorm conditions detected. IMMEDIATE LANDING REQUIRED."))
      as (a & Ha & Ea).
    { unfold alert_rules. repeat (apply in_or_app; right).
      unfold category_rule. rewrite H. left. reflexivity. }
    apply in_map_iff. exists a. split; [|exact Ha].
    apply (f_equal (fun s => snd (fst s))) in Ea. exact Ea.
  - intro G. apply in_map_iff in G. destruct G as (a & Ta & Ha).
    apply in_alerts_rules in Ha. unfold content in Ha.
    remember (level a, title a, message a) as s eqn:Es.
    assert (T : snd (fst s) = "Tornado Warning") by (subst s; exact Ta).
    clear Es Ta. in_rules Ha; simpl in T; try discriminate T. reflexivity.
Qed.

(** X20.  For a reading processed from a Tomorrow.io response, the evaluator
    raises the Thunderstorm Warning exactly when the weather code is 8000,
    and never raises the Tornado Warning. *)
Theorem fetched_category_alerts (values : Values) (w : World) :
  let code := Dict.get String.eqb values "weatherCode" (Py.Int 0) in
  let titles :=
    map title (fst (check_weather_alerts (processed_reading values) w)) in
  (In "Thunderstorm Warning" titles <-> Py.value code == 8000)
  /\ ~ In "Tornado Warning" titles.
Proof.
  intros code titles.
  destruct (category_titles (processed_reading values) w) as [Th To].
  destruct (description_category code) as [Dt Dh].
  split.
  - subst titles. rewrite Th. exact Dh.
  - intro G. apply To in G. simpl in G. fold code in G. congruence.
Qed.

Lemma low_visibility_score (r : WeatherData) :
  visibility r < 1 ->
  _analyze_visibility FlightAnalyzer_init (visibility r) = 0%Z
  /\ (fst (calculate_flight_score FlightAnalyzer_init (Some r)) <= 75)%Z
  /\ snd (calculate_flight_score FlightAnalyzer_init (Some r)) <> SAFE.
Proof.
  intro H.
  assert (V : _analyze_visibility FlightAnalyzer_init (visibility r) = 0%Z).
  { vis_cases (visibility r) Ev; first [exact Ev | exfalso; lra]. }
  assert (S : (fst (calculate_flight_score FlightAnalyzer_init (Some r))
               <= 75)%Z).
  { destruct (subscore_ranges r)
      as ([W1 W2] & _ & [T1 T2] & [P1 P2] & [C1 C2]).
    apply (score_le r 100 0 100 100 100); try assumption.
    - rewrite V. apply Qle_refl.
    - vm_compute. discriminate. }
  split; [exact V|]. split; [exact S|].
  rewrite tier_of_reading, tier_safe. lia.
Qed.

Lemma low_visibility_alert (r : WeatherData) (w : World) :
  visibility r < 1 ->
  In "Low Visibility Warning" (map title (fst (check_weather_alerts r w))).
Proof.
  intro H.
  destruct (in_rules_alerts r w
              (CRITICAL, "Low Visibility Warning",
               "Visibility " ++ Py.format_1f (visibility r)
                 ++ " km. Visual flight rules not recommended."))
    as (a & Ha & Ea).
  { unfold alert_rules. apply in_or_app. right. apply in_or_app. left.
    unfold visibility_rule.
    assert (E : Py.lt (visibility r) 1 = true) by (apply lt_true; exact H).
    rewrite E. left. reflexivity. }
  apply in_map_iff. exists a. split; [|exact Ha].
  apply (f_equal (fun s => snd (fst s))) in Ea. exact Ea.
Qed.

(** X21.  The fetcher divides the provider's visibility by 1000: the processed
    reading gets the best visibility sub-score only from a provider value
    of 10000 or more, and the sub-score 0 from any value below 1000. *)
Theorem fetched_visibility_scale (values : Values) :
  let v := Py.value (Dict.get String.eqb values "visibility" (Py.Int 10)) in
  let sub :=
    _analyze_visibility FlightAnalyzer_init
      (visibility (processed_reading values)) in
  (sub = 100%Z <-> 10000 <= v) /\ (sub = 0%Z <-> v < 1000).
Proof.
  intros v sub.
  assert (E : visibility (processed_reading values) == v * (1 # 1000)).
  { subst v. simpl. field. }
  subst sub. vis_cases (visibility (processed_reading values)) Ev;
    rewrite Ev; rewrite E in *; split; split; intro G;
    first [discriminate G | reflexivity | lra].
Qed.

(** X22.  When the response has no visibility, the processed reading has
    visibility 0.01 km: its visibility sub-score is 0, its score is at most
    75, its tier is not SAFE, and the evaluator raises the Low Visibility
    Warning. *)
Theorem fetched_missing_visibility (values : Values) (w : World) :
  values_find values "visibility" = None ->
  let r := processed_reading values in
  visibility r == 1 # 100
  /\ _analyze_visibility FlightAnalyzer_init (visibility r) = 0%Z
  /\ (fst (calculate_flight_score FlightAnalyzer_init (Some r)) <= 75)%Z
  /\ snd (calculate_flight_score FlightAnalyzer_init (Some r)) <> SAFE
  /\ In "Low Visibility Warning"
        (map title (fst (check_weather_alerts r w))).
Proof.
  intros H r.
  assert (E : visibility r == 1 # 100).
  { subst r. simpl. rewrite values_find_get, H. reflexivity. }
  assert (L : visibility r < 1) by (rewrite E; reflexivity).
  destruct (low_visibility_score r L) as (V & S & T).
  repeat split; try assumption. apply low_visibility_alert, L.
Qed.

Lemma fetched_missing_visibility_witness :
  let r := processed_reading [("temperature", Py.Float (215 # 10))] in
  visibility r == 1 # 100
  /\ _analyze_visibility FlightAnalyzer_init (visibility r) = 0%Z
  /\ (fst (calculate_flight_score FlightAnalyzer_init (Some r)) <= 75)%Z
  /\ snd (calculate_flight_score FlightAnalyzer_init (Some r)) <> SAFE
  /\ In "Low Visibility Warning"
        (map title (fst (check_weather_alerts r world0))).
Proof.
  apply (fetched_missing_visibility
           [("temperature", Py.Float (215 # 10))] world0).
  reflexivity.
Defined.

(** ** The forecast *)

Lemma forecast_loop_done (days : list Day) :
  forall acc l,
    forecast_loop days acc = Done l ->
    forallb complete days = true
    /\ exists new, l = (acc ++ new)%list
                   /\ List.length new = List.length days
                   /\ map (fun f => Some (f_datetime f)) new = map day_time days.
Proof.
  induction days as [|d days IH]; intros acc l H; simpl in *.
  - injection H as <-. split; [reflexivity|].
    exists []. rewrite app_nil_r. repeat split.
  - unfold complete at 1.
    destruct (day_values d) as [values|]; [|discriminate H].
    destruct (day_time d) as [t|]; [|discriminate H].
    destruct (IH _ _ H) as (C & new & E & L & T).
    split; [exact C|].
    exists (forecast_entry t values :: new).
    rewrite E, <- app_assoc. simpl. rewrite L, T. repeat split.
Qed.

Lemma length_slice_to {A : Type} (l : list A) (n : Z) :
  List.length (slice_to l n)
  = if (0 <=? n)%Z then Nat.min (Z.to_nat n) (List.length l)
    else (List.length l - Z.to_nat (- n))%nat.
Proof.
  unfold slice_to. destruct (0 <=? n)%Z; rewrite length_firstn; lia.
Qed.

(** X24.  Whenever the forecast is processed without an error, every day of
    the requested slice has its 'time' and its 'values', and there is one
    entry per day of the slice, in the order of the days and with their
    times: the first [days] days, or all but the last [-days] for a
    negative count. *)
Theorem forecast_entries (daily : list Day) (days : Z) (l : list Forecast) :
  _process_forecast_data {| timelines_daily := Some (Some daily) |} days
  = Done l ->
  forallb complete (slice_to daily days) = true
  /\ List.length l
     = (if (0 <=? days)%Z then Nat.min (Z.to_nat days) (List.length daily)
        else (List.length daily - Z.to_nat (- days))%nat)
  /\ map (fun f => Some (f_datetime f)) l
     = map day_time (slice_to daily days).
Proof.
  unfold _process_forecast_data. simpl. intro H.
  destruct (forecast_loop_done _ _ _ H) as (C & new & E & L & T).
  simpl in E. subst l. rewrite L, T, length_slice_to.
  split; [exact C|]. split; reflexivity.
Qed.

Lemma forecast_entries_witness :
  let d1 := {| day_time := Some "2026-01-01T06:00:00Z";
               day_values := Some [("temperatureAvg", Py.Int 3)] |} in
  let d2 := {| day_time := Some "2026-01-02T06:00:00Z";
               day_values := Some [("temperatureAvg", Py.Int 5)] |} in
  let broken := {| day_time := None; day_values := None |} in
  let l := [forecast_entry "2026-01-01T06:00:00Z" [("temperatureAvg", Py.Int 3)];
            forecast_entry "2026-01-02T06:00:00Z" [("temperatureAvg", Py.Int 5)]]
  in
  forallb complete (slice_to [d1; d2; broken] (-1)) = true
  /\ List.length l = 2%nat
  /\ map (fun f => Some (f_datetime f)) l
     = map day_time (slice_to [d1; d2; broken] (-1)).
Proof.
  intros d1 d2 broken l.
  apply (forecast_entries [d1; d2; broken] (-1) l).
  reflexivity.
Defined.

(** X25.  Days after the requested count are not inspected: whatever follows
    the first [days] days, complete or not, the result is the same. *)
Theorem forecast_ignores_later_days (daily extra : list Day) (days : Z) :
  (0 <= days <= Z.of_nat (List.length daily))%Z ->
  _process_forecast_data
    {| timelines_daily := Some (Some (daily ++ extra)%list) |} days
  = _process_forecast_data
      {| timelines_daily := Some (Some daily) |} days.
Proof.
  intro H. unfold _process_forecast_data, slice_to. simpl.
  assert (E : (0 <=? days)%Z = true) by (apply Z.leb_le; lia).
  rewrite E, firstn_app.
  replace (Z.to_nat days - List.length daily)%nat with 0%nat by lia.
  simpl. rewrite app_nil_r. reflexivity.
Qed.

Lemma forecast_ignores_later_days_witness :
  let d := {| day_time := Some "2026-01-01T06:00:00Z";
              day_values := Some [("temperatureAvg", Py.Int 3)] |} in
  let broken := {| day_time := None; day_values := None |} in
  _process_forecast_data
    {| timelines_daily := Some (Some ([d; d] ++ [broken])%list) |} 2
  = _process_forecast_data {| timelines_daily := Some (Some [d; d]) |} 2.
Proof.
  intros d broken.
  apply (forecast_ignores_later_days [d; d] [broken] 2).
  simpl. lia.
Defined.

(* ================================================================== *)
(** * The command loop *)

(** ** History *)




(** ** Dispatch *)

Lemma is_space_lower (c : ascii) : is_space (Py.lower_ascii c) = is_space c.
Proof. destruct c as [[] [] [] [] [] [] [] []]; reflexivity. Qed.

Lemma rstrip_ends (s : string) :
  rstrip s = "" \/ ends_nonspace (rstrip s) = true.
Proof.
  induction s as [|c s IH]; simpl.
  - left. reflexivity.
  - destruct (rstrip s) as [|a r] eqn:E.
    + destruct (is_space c) eqn:Ec; [left; reflexivity|].
      right. simpl. rewrite Ec. reflexivity.
    + right. destruct IH as [IH|IH]; [discriminate IH|]. exact IH.
Qed.

Lemma ends_nonspace_tail (c : ascii) (s : string) :
  ends_nonspace (String c s) = true -> s <> "" -> ends_nonspace s = true.
Proof. destruct s; intros H N; [contradiction|exact H]. Qed.

Lemma lstrip_ends (s : string) :
  ends_nonspace s = true -> ends_nonspace (lstrip s) = true.
Proof.
  induction s as [|c s IH]; intro H; [discriminate H|].
  simpl lstrip. destruct (is_space c) eqn:Ec; [|exact H].
  apply IH. destruct s; [|exact H].
  simpl in H. rewrite Ec in H. discriminate H.
Qed.

Lemma rstrip_fix (s : string) : ends_nonspace s = true -> rstrip s = s.
Proof.
  induction s as [|c s IH]; intro H; [discriminate H|].
  destruct s as [|a s].
  - simpl in *. apply negb_true_iff in H. rewrite H. reflexivity.
  - change (rstrip (String c (String a s)))
      with (match rstrip (String a s) with
            | EmptyString =>
                if is_space c then EmptyString else String c EmptyString
            | r => String c r
            end).
    rewrite (IH H). reflexivity.
Qed.

Lemma strip_nonempty (s : string) : ends_nonspace s = true -> strip s <> "".
Proof.
  intro H. unfold strip. rewrite (rstrip_fix _ (lstrip_ends _ H)).
  intro E. pose proof (lstrip_ends _ H) as L. rewrite E in L. discriminate L.
Qed.

Lemma lower_ends (s : string) :
  ends_nonspace (Py.lower s) = ends_nonspace s.
Proof.
  induction s as [|c s IH]; [reflexivity|].
  destruct s as [|a s].
  - simpl. rewrite is_space_lower. reflexivity.
  - exact IH.
Qed.

Lemma lower_lstrip (s : string) : Py.lower (lstrip s) = lstrip (Py.lower s).
Proof.
  induction s as [|c s IH]; [reflexivity|].
  simpl. rewrite is_space_lower. destruct (is_space c); [exact IH|reflexivity].
Qed.

Lemma lower_rstrip (s : string) : Py.lower (rstrip s) = rstrip (Py.lower s).
Proof.
  induction s as [|c s IH]; [reflexivity|].
  simpl. rewrite <- IH, is_space_lower.
  destruct (rstrip s); simpl; [destruct (is_space c)|]; reflexivity.
Qed.

Lemma lower_strip (s : string) : Py.lower (strip s) = strip (Py.lower s).
Proof. unfold strip. rewrite lower_rstrip, lower_lstrip. reflexivity. Qed.

Lemma lower_drop (n : nat) :
  forall s, Py.lower (drop n s) = drop n (Py.lower s).
Proof.
  induction n as [|n IH]; intro s; [reflexivity|].
  destruct s as [|c s]; [reflexivity|]. simpl. apply IH.
Qed.

Lemma startswith_drop (p : string) :
  forall s, Py.startswith s p = true -> s = p ++ drop (String.length p) s.
Proof.
  induction p as [|a p IH]; intros s H; [reflexivity|].
  destruct s as [|b s]; [discriminate H|].
  simpl in H. apply andb_true_iff in H. destruct H as [Hab H].
  apply Ascii.eqb_eq in Hab. subst b. simpl. f_equal. apply IH, H.
Qed.

Lemma drop_ends (n : nat) :
  forall s,
    ends_nonspace s = true -> drop n s <> "" ->
    ends_nonspace (drop n s) = true.
Proof.
  induction n as [|n IH]; intros s H N; [exact H|].
  destruct s as [|c s]; [discriminate H|].
  simpl in *. apply IH; [|exact N].
  apply (ends_nonspace_tail c); [exact H|].
  intro E. subst s. destruct n; contradiction.
Qed.

Lemma append_empty_r (s : string) : s ++ "" = s.
Proof. induction s as [|c s IH]; simpl; [|rewrite IH]; reflexivity. Qed.

(** What follows a prefix ending in a blank, in a stripped command, strips
    to a non-empty string. *)
Lemma argument_nonempty (p command : string) :
  ends_nonspace p = false -> p <> "" ->
  (command = "" \/ ends_nonspace command = true) ->
  Py.startswith command p = true ->
  strip (drop (String.length p) command) <> "".
Proof.
  intros Hp Np Hc Hs.
  pose proof (startswith_drop p command Hs) as E.
  destruct Hc as [Hc|Hc].
  { subst command. destruct p; [contradiction|discriminate Hs]. }
  apply strip_nonempty, drop_ends; [exact Hc|].
  intro D. rewrite D, append_empty_r in E. subst command. congruence.
Qed.

(** X27.  The loop never passes an empty location to [get_current_weather] or
    [get_forecast]: for an ASCII line, the location it extracts is not
    empty, and it is in lower case. *)
Theorem dispatch_location_nonempty (line location : string) :
  is_ascii line = true ->
  dispatch line = GetCurrentWeather location
  \/ dispatch line = GetForecast location ->
  location <> "" /\ Py.lower location = location.
Proof.
  intros _ H. unfold dispatch in H. cbv zeta in H.
  assert (C : Py.lower (strip line) = ""
              \/ ends_nonspace (Py.lower (strip line)) = true).
  { rewrite lower_ends. unfold strip.
    destruct (rstrip_ends (lstrip line)) as [E|E]; [left|right; exact E].
    rewrite E. reflexivity. }
  assert (L : forall n,
             Py.lower (strip (drop n (Py.lower (strip line))))
             = strip (drop n (Py.lower (strip line)))).
  { intro n. rewrite lower_strip, lower_drop, lower_idempotent. reflexivity. }
  destruct (existsb _ _); [destruct H; discriminate|].
  destruct (String.eqb _ "help"); [destruct H; discriminate|].
  destruct (Py.startswith _ "weather ") eqn:W.
  { destruct H as [H|H]; [|discriminate H]. injection H as <-.
    split; [|exact (L 8%nat)].
    assert (N : "weather " <> "") by discriminate.
    exact (argument_nonempty "weather " _ eq_refl N C W). }
  destruct (Py.startswith _ "forecast ") eqn:F.
  { destruct H as [H|H]; [discriminate H|]. injection H as <-.
    split; [|exact (L 9%nat)].
    assert (N : "forecast " <> "") by discriminate.
    exact (argument_nonempty "forecast " _ eq_refl N C F). }
  repeat match type of H with
         | context [if ?c then _ else _] => destruct c
         end; destruct H; discriminate.
Qed.

Lemma dispatch_location_nonempty_witness :
  "new york" <> "" /\ Py.lower "new york" = "new york".
Proof.
  apply (dispatch_location_nonempty "  Weather   New York  " "new york").
  - reflexivity.
  - left. reflexivity.
Defined.

